(** * The Sparkify data-lake ETL (etl.py): a shallow embedding

    The pipeline reads song metadata and user-activity events, builds the
    dimension tables [songs], [artists], [users], [time] and the fact table
    [songplays], and writes each one as parquet.

    Conventions of the embedding:
    - a nullable column is an [option]; SQL equality is three-valued and a
      join or filter keeps a row only when its condition is true;
    - a [DecimalType(10,5)] value is the integer number of 10^-5 units, and
      the event [length] is carried in the same unit (210.5 is 21050000);
    - a table is the list of its rows, in the order the model produces them;
      the engine gives no order, and no statement below depends on one;
    - a Python UDF is evaluated when the table is written: a row on which
      the lambda raises makes the write, and so the run, fail. *)

From Stdlib Require Import ZArith QArith String Ascii List.
From stdpp Require Import base option list strings gmap.

Local Open Scope string_scope.
Local Open Scope Z_scope.

(** ** Results of fallible steps *)

Inductive exn :=
  | ValueError
  | AttributeError
  | TypeError
  | AnalysisException.

Inductive result (A : Type) :=
  | Ok (a : A)
  | Err (e : exn).
Arguments Ok {A} a.
Arguments Err {A} e.

Definition rbind {A B} (r : result A) (k : A → result B) : result B :=
  match r with
  | Ok a => k a
  | Err e => Err e
  end.

(** Evaluation of a fallible function on every row, in row order: the first
    row that raises decides the exception. *)
Fixpoint map_rows {A B} (f : A → result B) (l : list A) : result (list B) :=
  match l with
  | [] => Ok []
  | x :: t =>
      match f x with
      | Err e => Err e
      | Ok y =>
          match map_rows f t with
          | Err e => Err e
          | Ok ys => Ok (y :: ys)
          end
      end
  end.

(** ** The Python built-ins the lambdas use *)

Module Py.

(** [str.isspace] on ASCII: tab, newline, vertical tab, form feed, carriage
    return, the four separators 0x1c-0x1f and the blank. *)
Definition isspace (c : ascii) : bool :=
  let n := Z.of_nat (nat_of_ascii c) in
  ((9 <=? n) && (n <=? 13)) || ((28 <=? n) && (n <=? 32)).

Fixpoint lstrip (l : list ascii) : list ascii :=
  match l with
  | c :: t => if isspace c then lstrip t else l
  | [] => []
  end.

Definition rstrip (l : list ascii) : list ascii := rev (lstrip (rev l)).

(** [str.strip()] *)
Definition strip (s : string) : string :=
  string_of_list_ascii (rstrip (lstrip (list_ascii_of_string s))).

Definition digit (c : ascii) : option Z :=
  let n := Z.of_nat (nat_of_ascii c) in
  if (48 <=? n) && (n <=? 57) then Some (n - 48) else None.

Definition is_underscore (c : ascii) : bool :=
  Nat.eqb (nat_of_ascii c) 95.

(** The digit part of an integer literal: digits, with single underscores
    allowed between two digits. [after_digit] tells whether the previous
    character was a digit. *)
Fixpoint digitpart (acc : Z) (after_digit : bool) (l : list ascii) : option Z :=
  match l with
  | [] => if after_digit then Some acc else None
  | c :: t =>
      match digit c with
      | Some d => digitpart (10 * acc + d) true t
      | None =>
          if is_underscore c && after_digit then digitpart acc false t
          else None
      end
  end.

Definition signed (l : list ascii) : option Z :=
  match l with
  | c :: t =>
      if Nat.eqb (nat_of_ascii c) 45 then Z.opp <$> digitpart 0 false t
      else if Nat.eqb (nat_of_ascii c) 43 then digitpart 0 false t
      else digitpart 0 false l
  | [] => None
  end.

(** [int(s)] for a string [s]: surrounding whitespace is ignored, then an
    optional sign and a decimal digit part; anything else raises
    [ValueError]. *)
Definition int_of_str (s : string) : result Z :=
  match signed (rstrip (lstrip (list_ascii_of_string s))) with
  | Some n => Ok n
  | None => Err ValueError
  end.

(** [a / b] on integers is true division. The quotient is kept exact: for
    |a| < 2^53 and b = 1000 the binary64 quotient is within 2^-10 of it,
    which is less than the distance 1/1000 to the next integer, so the
    integer part below is the one Python computes. *)
Definition truediv (a b : Z) : Q := Qdiv (inject_Z a) (inject_Z b).

(** [int(x)] for a float [x]: the integer part, rounding toward zero. *)
Definition int_of_float (x : Q) : Z := Z.quot (Qnum x) (Zpos (Qden x)).

(** [os.path.join(a, b)] on POSIX paths. *)
Definition ends_with_slash (a : string) : bool :=
  match rev (list_ascii_of_string a) with
  | c :: _ => Nat.eqb (nat_of_ascii c) 47
  | [] => false
  end.

Definition starts_with_slash (b : string) : bool :=
  match b with
  | String c _ => Nat.eqb (nat_of_ascii c) 47
  | EmptyString => false
  end.

Definition os_path_join (a b : string) : string :=
  if starts_with_slash b then b
  else if ends_with_slash a || String.eqb a "" then String.append a b
  else String.append a (String.append "/" b).

(** The proleptic Gregorian calendar: the civil date of a day number
    counted from 1970-01-01, and back. *)
Definition civil_from_days (z : Z) : Z * Z * Z :=
  let z := z + 719468 in
  let era := z / 146097 in
  let doe := z - era * 146097 in
  let yoe := (doe - doe / 1460 + doe / 36524 - doe / 146096) / 365 in
  let doy := doe - (365 * yoe + yoe / 4 - yoe / 100) in
  let mp := (5 * doy + 2) / 153 in
  let d := doy - (153 * mp + 2) / 5 + 1 in
  let m := if mp <? 10 then mp + 3 else mp - 9 in
  (yoe + era * 400 + (if m <=? 2 then 1 else 0), m, d).

Definition days_from_civil (y m d : Z) : Z :=
  let y := if m <=? 2 then y - 1 else y in
  let era := y / 400 in
  let yoe := y - era * 400 in
  let doy := (153 * (if 2 <? m then m - 3 else m + 9) + 2) / 5 + d - 1 in
  let doe := yoe * 365 + yoe / 4 - yoe / 100 + doy in
  era * 146097 + doe - 719468.

(** A [datetime], which is also what the text
    [strftime('%Y-%m-%d %H:%M:%S')] spells out. *)
Record datetime := {
  dt_year : Z; dt_month : Z; dt_day : Z;
  dt_hour : Z; dt_minute : Z; dt_second : Z }.

(** [datetime.fromtimestamp(x)]: the wall clock of the machine's time zone,
    whose offset from UTC at the instant [x] is [tz x] seconds. Outside the
    years 1..9999 it raises. *)
Definition fromtimestamp (tz : Z → Z) (x : Z) : result datetime :=
  let t := x + tz x in
  let sod := t mod 86400 in
  let '(y, m, d) := civil_from_days (t / 86400) in
  if (1 <=? y) && (y <=? 9999) then
    Ok {| dt_year := y; dt_month := m; dt_day := d;
          dt_hour := sod / 3600; dt_minute := sod mod 3600 / 60;
          dt_second := sod mod 60 |}
  else Err ValueError.

End Py.

(** ** The dataframe operations the pipeline uses *)

Module Spark.

(** [a = b] in SQL: true only when both sides are non-null and equal. *)
Definition sql_eq {A} `{EqDecision A} (a b : option A) : bool :=
  match a, b with
  | Some x, Some y => bool_decide (x = y)
  | _, _ => false
  end.

(** [a != b] in SQL: true only when both sides are non-null and differ. *)
Definition sql_neq {A} `{EqDecision A} (a b : option A) : bool :=
  match a, b with
  | Some x, Some y => negb (bool_decide (x = y))
  | _, _ => false
  end.

(** [df.filter(cond)] *)
Definition where_ {A} (cond : A → bool) (df : list A) : list A :=
  filter (λ r, cond r) df.

(** [df.dropDuplicates()]: one row of every class of equal rows. *)
Definition dropDuplicates {A} `{EqDecision A} (df : list A) : list A :=
  remove_dups df.

(** [l JOIN r ON on] *)
Definition inner_join {A B} (on : A → B → bool) (l : list A) (r : list B)
  : list (A * B) :=
  l ≫= λ a, (λ b, (a, b)) <$> where_ (on a) r.

(** [l LEFT JOIN r ON on]: a left row without a match is kept once, with
    the right side null. *)
Definition left_join {A B} (on : A → B → bool) (l : list A) (r : list B)
  : list (A * option B) :=
  l ≫= λ a,
    match where_ (on a) r with
    | [] => [(a, None)]
    | ms => (λ b, (a, Some b)) <$> ms
    end.

(** [monotonically_increasing_id()]: the partition number in the upper
    bits and the position of the row inside its partition in the lower 33
    bits. *)
Fixpoint number_rows {A} (p j : Z) (part : list A) : list (Z * A) :=
  match part with
  | [] => []
  | r :: t => (Z.shiftl p 33 + j, r) :: number_rows p (j + 1) t
  end.

Fixpoint number_partitions {A} (p : Z) (parts : list (list A)) : list (Z * A) :=
  match parts with
  | [] => []
  | part :: rest => number_rows p 0 part ++ number_partitions (p + 1) rest
  end.

Definition monotonically_increasing_id {A} (parts : list (list A)) : list (Z * A) :=
  number_partitions 0 parts.

(** How the reader cuts the records of the input files into partitions:
    [sizes] are the lengths of the splits, what is left is the last one. *)
Fixpoint split_partitions {A} (sizes : list nat) (l : list A) : list (list A) :=
  match sizes with
  | [] => [l]
  | n :: ns => take n l :: split_partitions ns (drop n l)
  end.

(** The calendar functions applied to the [date] column. *)
Definition hour (d : Py.datetime) : Z := Py.dt_hour d.
Definition dayofmonth (d : Py.datetime) : Z := Py.dt_day d.
Definition month (d : Py.datetime) : Z := Py.dt_month d.
Definition year (d : Py.datetime) : Z := Py.dt_year d.

(** ISO day of the week, Monday = 1 .. Sunday = 7. *)
Definition isoweekday (d : Py.datetime) : Z :=
  (Py.days_from_civil (Py.dt_year d) (Py.dt_month d) (Py.dt_day d) + 3) mod 7 + 1.

Definition weeks_in_year (y : Z) : Z :=
  let p y := (y + y / 4 - y / 100 + y / 400) mod 7 in
  if (p y =? 4) || (p (y - 1) =? 3) then 53 else 52.

(** ISO 8601 week number. *)
Definition weekofyear (d : Py.datetime) : Z :=
  let y := Py.dt_year d in
  let ordinal :=
    Py.days_from_civil y (Py.dt_month d) (Py.dt_day d)
    - Py.days_from_civil y 1 1 + 1 in
  let w := (ordinal - isoweekday d + 10) / 7 in
  if w <? 1 then weeks_in_year (y - 1)
  else if weeks_in_year y <? w then 1
  else w.

(** [date_format(date, 'E')] *)
Definition date_format_E (d : Py.datetime) : string :=
  match isoweekday d with
  | 1 => "Mon" | 2 => "Tue" | 3 => "Wed" | 4 => "Thu"
  | 5 => "Fri" | 6 => "Sat" | _ => "Sun"
  end.

End Spark.

(** ** The input records *)

Inductive json :=
  | JNull
  | JStr (s : string)
  | JInt (n : Z)
  | JDec (d : Z).   (* a number with a fraction, in 10^-5 units *)

(** A JSON object of a song file: its fields by name. *)
Abbreviation json_object := (gmap string json).

Inductive DataType :=
  | StringType
  | IntegerType
  | DecimalType (precision scale : Z).

(** The value of a field read under a declared type; an absent field, a
    JSON null and a value that does not fit the type are all read as null.
    The song files hold text in the string fields. *)
Definition as_string (v : option json) : option string :=
  match v with
  | Some (JStr s) => Some s
  | _ => None
  end.

Definition as_integer (v : option json) : option Z :=
  match v with
  | Some (JInt n) =>
      if (- 2 ^ 31 <=? n) && (n <? 2 ^ 31) then Some n else None
  | _ => None
  end.

Definition as_decimal_10_5 (v : option json) : option Z :=
  let fit d := if Z.abs d <? 10 ^ 10 then Some d else None in
  match v with
  | Some (JInt n) => fit (n * 10 ^ 5)
  | Some (JDec d) => fit d
  | _ => None
  end.

(** The rows of [df_song_data], one field per [StructField] of
    [song_data_struct_type]. *)
Module song_data.
Record row := {
  song_id : option string;
  title : option string;
  year : option Z;
  duration : option Z;
  artist_id : option string;
  artist_name : option string;
  artist_location : option string;
  artist_lattitude : option Z;
  artist_longitude : option Z }.
End song_data.

Definition song_data_struct_type : list (string * DataType) :=
  [ ("song_id", StringType);
    ("title", StringType);
    ("year", IntegerType);
    ("duration", DecimalType 10 5);
    ("artist_id", StringType);
    ("artist_name", StringType);
    ("artist_location", StringType);
    ("artist_lattitude", DecimalType 10 5);
    ("artist_longitude", DecimalType 10 5) ].

(** [spark.read.json(song_data, schema=song_data_struct_type)] on one
    record: every declared field is looked up by its declared name. *)
Definition read_song_record (o : json_object) : song_data.row :=
  {| song_data.song_id := as_string (o !! "song_id");
     song_data.title := as_string (o !! "title");
     song_data.year := as_integer (o !! "year");
     song_data.duration := as_decimal_10_5 (o !! "duration");
     song_data.artist_id := as_string (o !! "artist_id");
     song_data.artist_name := as_string (o !! "artist_name");
     song_data.artist_location := as_string (o !! "artist_location");
     song_data.artist_lattitude := as_decimal_10_5 (o !! "artist_lattitude");
     song_data.artist_longitude := as_decimal_10_5 (o !! "artist_longitude") |}.

(** The rows of the log dataframe; the schema is inferred, every column is
    nullable. *)
Module log_data.
Record row := {
  artist : option string;
  firstName : option string;
  gender : option string;
  lastName : option string;
  length : option Z;
  level : option string;
  location : option string;
  page : option string;
  sessionId : option Z;
  song : option string;
  ts : option Z;
  userAgent : option string;
  userId : option string }.
End log_data.

(** The log rows after [withColumn('timestamp', ...)] and
    [withColumn('date', ...)]. *)
Record dated := {
  event : log_data.row;
  timestamp : Z;
  date : Py.datetime }.

(** ** The output tables *)

Module songs.
Record row := {
  song_id : option string;
  title : option string;
  artist_id : option string;
  year : option Z;
  duration : option Z }.
Definition columns : list string :=
  ["song_id"; "title"; "artist_id"; "year"; "duration"].
End songs.

Module artists.
Record row := {
  artist_id : option string;
  name : option string;
  location : option string;
  lattitude : option Z;
  longitude : option Z }.
Definition columns : list string :=
  ["artist_id"; "name"; "location"; "lattitude"; "longitude"].
End artists.

Module users.
Record row := {
  firstName : option string;
  lastName : option string;
  gender : option string;
  level : option string;
  user_id : Z }.
Definition columns : list string :=
  ["firstName"; "lastName"; "gender"; "level"; "user_id"].
End users.

Module time.
Record row := {
  start_time : option Z;
  hour : Z;
  day : Z;
  week : Z;
  month : Z;
  year : Z;
  weekday : string }.
Definition columns : list string :=
  ["start_time"; "hour"; "day"; "week"; "month"; "year"; "weekday"].
End time.

(** The temporary view [songplay]: the projected log rows. *)
Module songplay.
Record row := {
  songplay_id : Z;
  start_time : option Z;
  user_id : Z;
  level : option string;
  length : option Z;
  song : option string;
  artist : option string;
  session_id : option Z;
  location : option string;
  user_agent : option string }.
End songplay.

Module songplays.
Record row := {
  songplay_id : Z;
  start_time : option Z;
  user_id : Z;
  level : option string;
  length : option Z;
  session_id : option Z;
  location : option string;
  user_agent : option string;
  artist_id : option string;
  song_id : option string;
  year : Z;
  month : Z }.
Definition columns : list string :=
  ["songplay_id"; "start_time"; "user_id"; "level"; "length"; "session_id";
   "location"; "user_agent"; "artist_id"; "song_id"; "year"; "month"].
End songplays.

#[global] Instance songs_row_eq_dec : EqDecision songs.row.
Proof. solve_decision. Defined.

#[global] Instance artists_row_eq_dec : EqDecision artists.row.
Proof. solve_decision. Defined.

#[global] Instance users_row_eq_dec : EqDecision users.row.
Proof. solve_decision. Defined.

#[global] Instance time_row_eq_dec : EqDecision time.row.
Proof. solve_decision. Defined.

#[global] Instance songplays_row_eq_dec : EqDecision songplays.row.
Proof. solve_decision. Defined.

(** ** Storage *)

Inductive Table :=
  | SongsT (rows : list songs.row)
  | ArtistsT (rows : list artists.row)
  | UsersT (rows : list users.row)
  | TimeT (rows : list time.row)
  | SongplaysT (rows : list songplays.row).

(** A dataset at a path: the columns it is partitioned by and its rows. *)
Record Stored := {
  partition_cols : list string;
  contents : Table }.

Abbreviation Store := (gmap string Stored).

(** A step of the job: it changes the store and returns or raises. *)
Definition Job (A : Type) : Type := Store → Store * result A.

Definition bind {A B} (m : Job A) (k : A → Job B) : Job B :=
  λ st,
    match m st with
    | (st', Ok a) => k a st'
    | (st', Err e) => (st', Err e)
    end.

Notation "'let*' x ':=' m 'in' k" := (bind m (λ x, k))
  (at level 10, x name, m at level 100, k at level 200).
Notation "'do' m 'then' k" := (bind m (λ _, k))
  (at level 10, m at level 100, k at level 200).

Definition append_table (old new : Table) : option Table :=
  match old, new with
  | SongsT a, SongsT b => Some (SongsT (a ++ b))
  | ArtistsT a, ArtistsT b => Some (ArtistsT (a ++ b))
  | UsersT a, UsersT b => Some (UsersT (a ++ b))
  | TimeT a, TimeT b => Some (TimeT (a ++ b))
  | SongplaysT a, SongplaysT b => Some (SongplaysT (a ++ b))
  | _, _ => None
  end.

(** [df.write.partitionBy(cols).parquet(path, mode)]. The table is computed
    by the write; when a lambda raises on a row nothing is stored. With
    ['overwrite'] the dataset at [path] is replaced, whatever was there. *)
Definition write_parquet (cols : list string) (df : result Table)
    (path mode : string) : Job () :=
  λ st,
    match df with
    | Err e => (st, Err e)
    | Ok t =>
        let new := {| partition_cols := cols; contents := t |} in
        if String.eqb mode "overwrite" then (<[path := new]> st, Ok ())
        else
          match st !! path with
          | None => (<[path := new]> st, Ok ())
          | Some old =>
              if String.eqb mode "ignore" then (st, Ok ())
              else if String.eqb mode "append" then
                match append_table (contents old) t with
                | Some t' =>
                    (<[path := {| partition_cols := cols; contents := t' |}]> st,
                     Ok ())
                | None => (st, Err AnalysisException)
                end
              else (st, Err AnalysisException)
          end
    end.

(** [spark.read.format("parquet").load(...)] of the dataset at [path]: the
    rows that were written there. *)
Definition load_parquet (path : string) : Job Table :=
  λ st,
    match st !! path with
    | Some d => (st, Ok (contents d))
    | None => (st, Err AnalysisException)
    end.

(** ** The run-time environment and the input *)

(** What a run depends on besides its input files: the time zone of the
    machine ([local_tz x] is the offset from UTC, in seconds, at the instant
    [x]) and how the reader splits the log records into partitions. *)
Record SparkSession := {
  local_tz : Z → Z;
  log_splits : list nat }.

(** The records under an input root: [song_data/*/*/*/*.json] and
    [log_data/*/*/*.json]. *)
Record InputData := {
  song_files : list json_object;
  log_files : list log_data.row }.

(** ** etl.py *)

(** [lambda x: int(x.strip())]; on a null [x] the attribute access raises. *)
Definition userid_int (x : option string) : result Z :=
  match x with
  | None => Err AttributeError
  | Some s => Py.int_of_str (Py.strip s)
  end.

(** The columns selected for the users table, [userId] first. *)
Definition users_select (r : log_data.row)
  : option string * option string * option string * option string * option string :=
  (log_data.userId r, log_data.firstName r, log_data.lastName r,
   log_data.gender r, log_data.level r).

(** [withColumn('user_id', userid_int(df_users.userId))] and
    [drop('userId')] on one row. *)
Definition users_with_user_id
    (r : option string * option string * option string * option string * option string)
  : result users.row :=
  rbind (userid_int r.1.1.1.1) (λ user_id,
    Ok {| users.firstName := r.1.1.1.2; users.lastName := r.1.1.2;
          users.gender := r.1.2; users.level := r.2;
          users.user_id := user_id |}).

Definition create_users_table (df_events : list log_data.row)
  : result (list users.row) :=
  let df_users := Spark.dropDuplicates (users_select <$> df_events) in
  map_rows users_with_user_id df_users.

(** The select list of [create_time_table]. *)
Definition time_select (r : dated) : time.row :=
  {| time.start_time := log_data.ts (event r);
     time.hour := Spark.hour (date r);
     time.day := Spark.dayofmonth (date r);
     time.week := Spark.weekofyear (date r);
     time.month := Spark.month (date r);
     time.year := Spark.year (date r);
     time.weekday := Spark.date_format_E (date r) |}.

Definition create_time_table (df_time : list dated) : list time.row :=
  time_select <$> df_time.

(** The select list of [create_songplays_dataframe], on a log row with its
    generated id and its parsed user id. *)
Definition songplay_select (songplay_id user_id : Z) (e : log_data.row)
  : songplay.row :=
  {| songplay.songplay_id := songplay_id;
     songplay.start_time := log_data.ts e;
     songplay.user_id := user_id;
     songplay.level := log_data.level e;
     songplay.length := log_data.length e;
     songplay.song := log_data.song e;
     songplay.artist := log_data.artist e;
     songplay.session_id := log_data.sessionId e;
     songplay.location := log_data.location e;
     songplay.user_agent := log_data.userAgent e |}.

(** [df_log_data] arrives in its partitions, on which the generated id
    depends. *)
Definition create_songplays_dataframe (df_log_data : list (list dated))
  : result (list songplay.row) :=
  map_rows
    (λ r, rbind (userid_int (log_data.userId (event r.2))) (λ user_id,
            Ok (songplay_select r.1 user_id (event r.2))))
    (Spark.monotonically_increasing_id df_log_data).

Definition songs_table_of (df_song_data : list song_data.row) : list songs.row :=
  Spark.dropDuplicates
    (Spark.where_ (λ r, Spark.sql_neq (songs.song_id r) (Some ""))
       ((λ r, {| songs.song_id := song_data.song_id r;
                 songs.title := song_data.title r;
                 songs.artist_id := song_data.artist_id r;
                 songs.year := song_data.year r;
                 songs.duration := song_data.duration r |}) <$> df_song_data)).

Definition artists_table_of (df_song_data : list song_data.row) : list artists.row :=
  Spark.dropDuplicates
    (Spark.where_ (λ r, Spark.sql_neq (artists.artist_id r) (Some ""))
       ((λ r, {| artists.artist_id := song_data.artist_id r;
                 artists.name := song_data.artist_name r;
                 artists.location := song_data.artist_location r;
                 artists.lattitude := song_data.artist_lattitude r;
                 artists.longitude := song_data.artist_longitude r |})
          <$> df_song_data)).

Definition process_song_data (spark : SparkSession) (input_data : InputData)
    (output_data : string) : Job () :=
  let df_song_data := read_song_record <$> song_files input_data in
  let songs_table := songs_table_of df_song_data in
  do write_parquet ["year"; "artist_id"] (Ok (SongsT songs_table))
       (Py.os_path_join output_data "songs/songs.parquet") "overwrite" then
  let artists_table := artists_table_of df_song_data in
  write_parquet [] (Ok (ArtistsT artists_table))
    (Py.os_path_join output_data "artists/artists.parquet") "overwrite".

(** [lambda x: int(int(x)/1000)] *)
Definition get_timestamp (x : option Z) : result Z :=
  match x with
  | None => Err TypeError
  | Some n => Ok (Py.int_of_float (Py.truediv n 1000))
  end.

(** [lambda x: datetime.fromtimestamp(x).strftime('%Y-%m-%d %H:%M:%S')] *)
Definition get_datetime (spark : SparkSession) (x : Z) : result Py.datetime :=
  Py.fromtimestamp (local_tz spark) x.

Definition with_date (spark : SparkSession) (r : log_data.row) : result dated :=
  rbind (get_timestamp (log_data.ts r)) (λ t,
    rbind (get_datetime spark t) (λ d,
      Ok {| event := r; timestamp := t; date := d |})).

(** The SELECT list of the query: the [songplay] columns, [artist_id] and
    [song_id] of the joined [songs] row (null when there is none), [year]
    and [month] of the joined [time] row. *)
Definition songplays_select (sp : songplay.row) (t : time.row)
    (s : option songs.row) : songplays.row :=
  {| songplays.songplay_id := songplay.songplay_id sp;
     songplays.start_time := songplay.start_time sp;
     songplays.user_id := songplay.user_id sp;
     songplays.level := songplay.level sp;
     songplays.length := songplay.length sp;
     songplays.session_id := songplay.session_id sp;
     songplays.location := songplay.location sp;
     songplays.user_agent := songplay.user_agent sp;
     songplays.artist_id := s ≫= songs.artist_id;
     songplays.song_id := s ≫= songs.song_id;
     songplays.year := time.year t;
     songplays.month := time.month t |}.

Definition on_time (sp : songplay.row) (t : time.row) : bool :=
  Spark.sql_eq (songplay.start_time sp) (time.start_time t).

Definition on_songs (l : songplay.row * time.row) (s : songs.row) : bool :=
  Spark.sql_eq (songplay.song l.1) (songs.title s)
  && Spark.sql_eq (songplay.length l.1) (songs.duration s).

Definition on_artists (l : songplay.row * time.row * option songs.row)
    (a : artists.row) : bool :=
  Spark.sql_eq (songplay.artist l.1.1) (artists.name a)
  && Spark.sql_eq (l.2 ≫= songs.artist_id) (artists.artist_id a).

(** The query that builds the [songplays] table from the four views:
    [songplay JOIN time ON ... LEFT JOIN songs ON ... LEFT JOIN artists ON ...]. *)
Definition songplays_query (songplay : list songplay.row) (time : list time.row)
    (songs : list songs.row) (artists : list artists.row) : list songplays.row :=
  (λ j, songplays_select j.1.1.1 j.1.1.2 j.1.2)
    <$> Spark.left_join on_artists
          (Spark.left_join on_songs (Spark.inner_join on_time songplay time) songs)
          artists.

Definition is_NextSong (r : log_data.row) : bool :=
  Spark.sql_eq (log_data.page r) (Some "NextSong").

Definition as_songs (t : Table) : result (list songs.row) :=
  match t with
  | SongsT rows => Ok rows
  | _ => Err AnalysisException
  end.

Definition as_artists (t : Table) : result (list artists.row) :=
  match t with
  | ArtistsT rows => Ok rows
  | _ => Err AnalysisException
  end.

Definition lift {A} (r : result A) : Job A := λ st, (st, r).

Definition process_log_data (spark : SparkSession) (input_data : InputData)
    (output_data : string) : Job () :=
  let df := Spark.split_partitions (log_splits spark) (log_files input_data) in
  let df := Spark.where_ is_NextSong <$> df in
  let users_table := create_users_table (concat df) in
  do write_parquet [] (rbind users_table (λ t, Ok (UsersT t)))
       (Py.os_path_join output_data "users/users.parquet") "overwrite" then
  let df := map_rows (map_rows (with_date spark)) df in
  let time_table := rbind df (λ df, Ok (create_time_table (concat df))) in
  do write_parquet ["year"; "month"] (rbind time_table (λ t, Ok (TimeT t)))
       (Py.os_path_join output_data "time/time.parquet") "overwrite" then
  (* songs/*/*/*/ are the partition directories of songs/songs.parquet,
     artists/*/ is artists/artists.parquet *)
  let* song_df :=
    bind (load_parquet (Py.os_path_join output_data "songs/songs.parquet"))
      (λ t, lift (as_songs t)) in
  let* artists_df :=
    bind (load_parquet (Py.os_path_join output_data "artists/artists.parquet"))
      (λ t, lift (as_artists t)) in
  let df_log_data := rbind df create_songplays_dataframe in
  let songplays_table :=
    rbind df_log_data (λ songplay,
      rbind time_table (λ time,
        Ok (songplays_query songplay time song_df artists_df))) in
  write_parquet ["year"; "month"] (rbind songplays_table (λ t, Ok (SongplaysT t)))
    (Py.os_path_join output_data "songplays/songplays.parquet") "overwrite".

Definition main (spark : SparkSession) (s3 : string → InputData) : Job () :=
  let input_data := "s3n://udacity-dend/" in
  let output_data := "s3n://spark-dev2/spark-project/" in
  do process_song_data spark (s3 input_data) output_data then
  process_log_data spark (s3 input_data) output_data.

(** ** The places the run reads and writes *)

Definition root_in : string := "s3n://udacity-dend/".
Definition root_out : string := "s3n://spark-dev2/spark-project/".
Definition songs_path : string := "s3n://spark-dev2/spark-project/songs/songs.parquet".
Definition artists_path : string := "s3n://spark-dev2/spark-project/artists/artists.parquet".
Definition users_path : string := "s3n://spark-dev2/spark-project/users/users.parquet".
Definition time_path : string := "s3n://spark-dev2/spark-project/time/time.parquet".
Definition songplays_path : string :=
  "s3n://spark-dev2/spark-project/songplays/songplays.parquet".

(** The log rows that pass [page == 'NextSong'], in their partitions. *)
Definition next_song_df (spark : SparkSession) (input_data : InputData)
  : list (list log_data.row) :=
  Spark.where_ is_NextSong
    <$> Spark.split_partitions (log_splits spark) (log_files input_data).

(** The store after the five writes of a run. *)
Definition final_store (st : Store) (songs : list songs.row)
    (artists : list artists.row) (users : list users.row)
    (time : list time.row) (songplays : list songplays.row) : Store :=
  <[songplays_path := {| partition_cols := ["year"; "month"];
                         contents := SongplaysT songplays |}]>
    (<[time_path := {| partition_cols := ["year"; "month"];
                       contents := TimeT time |}]>
       (<[users_path := {| partition_cols := []; contents := UsersT users |}]>
          (<[artists_path := {| partition_cols := [];
                                contents := ArtistsT artists |}]>
             (<[songs_path := {| partition_cols := ["year"; "artist_id"];
                                 contents := SongsT songs |}]> st)))).

(** [r] carries the columns of the play [e]: what ties a fact row to the
    log record it was derived from. *)
Definition fact_of_play (e : log_data.row) (r : songplays.row) : Prop :=
  songplays.start_time r = log_data.ts e ∧
  userid_int (log_data.userId e) = Ok (songplays.user_id r) ∧
  songplays.level r = log_data.level e ∧
  songplays.length r = log_data.length e ∧
  songplays.session_id r = log_data.sessionId e ∧
  songplays.location r = log_data.location e ∧
  songplays.user_agent r = log_data.userAgent e.

(** ** Sample data

    The scenario of the specification: one song "Test Song" of 210.5 s by
    "Test Artist", and one play of it at 1541717732796 ms. *)

Definition test_song : json_object :=
  list_to_map
    [ ("song_id", JStr "S1"); ("title", JStr "Test Song"); ("year", JInt 2018);
      ("duration", JDec 21050000); ("artist_id", JStr "A1");
      ("artist_name", JStr "Test Artist"); ("artist_location", JStr "Memphis");
      ("artist_latitude", JDec 3514968); ("artist_longitude", JDec (-9004892)) ].

Definition test_event : log_data.row :=
  {| log_data.artist := Some "Test Artist";
     log_data.firstName := Some "Lily";
     log_data.gender := Some "F";
     log_data.lastName := Some "Koch";
     log_data.length := Some 21050000;
     log_data.level := Some "paid";
     log_data.location := Some "Chicago";
     log_data.page := Some "NextSong";
     log_data.sessionId := Some 818;
     log_data.song := Some "Test Song";
     log_data.ts := Some 1541717732796;
     log_data.userAgent := Some "Mozilla/5.0";
     log_data.userId := Some " 15 " |}.

Definition with_userId (u : option string) (e : log_data.row) : log_data.row :=
  {| log_data.artist := log_data.artist e;
     log_data.firstName := log_data.firstName e;
     log_data.gender := log_data.gender e;
     log_data.lastName := log_data.lastName e;
     log_data.length := log_data.length e;
     log_data.level := log_data.level e;
     log_data.location := log_data.location e;
     log_data.page := log_data.page e;
     log_data.sessionId := log_data.sessionId e;
     log_data.song := log_data.song e;
     log_data.ts := log_data.ts e;
     log_data.userAgent := log_data.userAgent e;
     log_data.userId := u |}.

Definition with_page (p : option string) (e : log_data.row) : log_data.row :=
  {| log_data.artist := log_data.artist e;
     log_data.firstName := log_data.firstName e;
     log_data.gender := log_data.gender e;
     log_data.lastName := log_data.lastName e;
     log_data.length := log_data.length e;
     log_data.level := log_data.level e;
     log_data.location := log_data.location e;
     log_data.page := p;
     log_data.sessionId := log_data.sessionId e;
     log_data.song := log_data.song e;
     log_data.ts := log_data.ts e;
     log_data.userAgent := log_data.userAgent e;
     log_data.userId := log_data.userId e |}.

(** A song record without the [artist_id] field. *)
Definition song_without_artist : json_object :=
  list_to_map
    [ ("song_id", JStr "S1"); ("title", JStr "Test Song");
      ("duration", JDec 21050000) ].

(** A machine on UTC that reads the log as one partition. *)
Definition utc : SparkSession := {| local_tz := λ _, 0; log_splits := [] |}.

(** A machine one hour east of UTC. *)
Definition utc_plus_1 : SparkSession := {| local_tz := λ _, 3600; log_splits := [] |}.

Definition bucket (songs : list json_object) (log : list log_data.row)
  : string → InputData :=
  λ _, {| song_files := songs; log_files := log |}.

Definition test_bucket : string → InputData := bucket [test_song] [test_event].

(** Two plays in the same millisecond, by two users. *)
Definition simultaneous_plays : list log_data.row :=
  [test_event; with_userId (Some "16") test_event].

(** The same user twice, the id once padded with a blank. *)
Definition padded_twice : list log_data.row :=
  [with_userId (Some "15") test_event; with_userId (Some " 15") test_event].

(** A log with one play and one visit of the home page. *)
Definition test_bucket_with_home : string → InputData :=
  bucket [test_song]
    [test_event; with_userId (Some "not a number") (with_page (Some "Home") test_event)].

(** A play whose record has no timestamp. *)
Definition with_ts (t : option Z) (e : log_data.row) : log_data.row :=
  {| log_data.artist := log_data.artist e;
     log_data.firstName := log_data.firstName e;
     log_data.gender := log_data.gender e;
     log_data.lastName := log_data.lastName e;
     log_data.length := log_data.length e;
     log_data.level := log_data.level e;
     log_data.location := log_data.location e;
     log_data.page := log_data.page e;
     log_data.sessionId := log_data.sessionId e;
     log_data.song := log_data.song e;
     log_data.ts := t;
     log_data.userAgent := log_data.userAgent e;
     log_data.userId := log_data.userId e |}.

Definition test_bucket_without_ts : string → InputData :=
  bucket [test_song] [test_event; with_ts None test_event].

(** The sample play with its date on UTC. *)
Definition test_dated : dated :=
  {| event := test_event;
     timestamp := 1541717732;
     date := {| Py.dt_year := 2018; Py.dt_month := 11; Py.dt_day := 8;
                Py.dt_hour := 22; Py.dt_minute := 55; Py.dt_second := 32 |} |}.

(** * Properties *)

(** ** The built-ins on examples *)

Example strip_padded : Py.strip "  42 " = "42".
Proof. reflexivity. Qed.

Example userid_int_padded : userid_int (Some " 15 ") = Ok 15.
Proof. reflexivity. Qed.

Example userid_int_grouped : userid_int (Some "1_000") = Ok 1000.
Proof. reflexivity. Qed.

Example userid_int_word : userid_int (Some "abc") = Err ValueError.
Proof. reflexivity. Qed.

Example userid_int_empty : userid_int (Some "") = Err ValueError.
Proof. reflexivity. Qed.

Example userid_int_null : userid_int None = Err AttributeError.
Proof. reflexivity. Qed.

Example os_path_join_root :
  Py.os_path_join "s3n://spark-dev2/spark-project/" "songs/songs.parquet"
  = "s3n://spark-dev2/spark-project/songs/songs.parquet".
Proof. reflexivity. Qed.

Example time_row_of_test_event :
  rbind (with_date utc test_event) (λ d, Ok (time_select d))
  = Ok {| time.start_time := Some 1541717732796; time.hour := 22;
          time.day := 8; time.week := 45; time.month := 11;
          time.year := 2018; time.weekday := "Thu" |}.
Proof. reflexivity. Qed.

Example week_53_of_2020 :
  Spark.weekofyear {| Py.dt_year := 2021; Py.dt_month := 1; Py.dt_day := 3;
                      Py.dt_hour := 0; Py.dt_minute := 0; Py.dt_second := 0 |} = 53.
Proof. reflexivity. Qed.

(** ** Row-wise evaluation *)

Section map_rows_facts.
Context {A B : Type}.
Implicit Types (f g : A → result B) (l : list A).

Lemma map_rows_Ok f l ys :
  map_rows f l = Ok ys → Forall2 (λ x y, f x = Ok y) l ys.
Proof.
  revert ys. induction l as [|x l IH]; simpl; intros ys H.
  - injection H as <-. constructor.
  - destruct (f x) as [y|] eqn:Hx; [|discriminate].
    destruct (map_rows f l) as [zs|]; [|discriminate].
    injection H as <-. constructor; auto.
Qed.

Lemma map_rows_Err f l e :
  map_rows f l = Err e → ∃ x, x ∈ l ∧ f x = Err e.
Proof.
  induction l as [|x l IH]; simpl; intros H; [discriminate|].
  destruct (f x) as [y|e'] eqn:Hx.
  - destruct (map_rows f l) as [zs|e'']; [discriminate|].
    injection H as <-. destruct IH as (x' & ? & ?); [done|].
    exists x'. split; [by right | done].
  - injection H as <-. exists x. split; [by left | done].
Qed.

Lemma map_rows_raises f l x e :
  x ∈ l → f x = Err e → ∃ e', map_rows f l = Err e'.
Proof.
  intros Hx Hf. destruct (map_rows f l) as [ys|e'] eqn:H; [|eauto].
  apply map_rows_Ok in H.
  apply list_elem_of_lookup in Hx as [i Hi].
  destruct (Forall2_lookup_l _ _ _ _ _ H Hi) as (y & _ & Hy).
  congruence.
Qed.

Lemma map_rows_ext f g l :
  (∀ x, f x = g x) → map_rows f l = map_rows g l.
Proof.
  intros E. induction l as [|x l IH]; simpl; [done|].
  by rewrite E, IH.
Qed.

Lemma map_rows_elem_l f l ys x :
  map_rows f l = Ok ys → x ∈ l → ∃ y, y ∈ ys ∧ f x = Ok y.
Proof.
  intros H Hx. apply map_rows_Ok in H.
  apply list_elem_of_lookup in Hx as [i Hi].
  destruct (Forall2_lookup_l _ _ _ _ _ H Hi) as (y & Hy & ?).
  exists y. split; [|done]. apply list_elem_of_lookup. eauto.
Qed.

Lemma map_rows_elem_r f l ys y :
  map_rows f l = Ok ys → y ∈ ys → ∃ x, x ∈ l ∧ f x = Ok y.
Proof.
  intros H Hy. apply map_rows_Ok in H.
  apply list_elem_of_lookup in Hy as [i Hi].
  destruct (Forall2_lookup_r _ _ _ _ _ H Hi) as (x & Hx & ?).
  exists x. split; [|done]. apply list_elem_of_lookup. eauto.
Qed.
End map_rows_facts.

(** ** Filters, joins, partitions *)

Lemma elem_of_where_ {A} (cond : A → bool) (df : list A) (r : A) :
  r ∈ Spark.where_ cond df ↔ cond r = true ∧ r ∈ df.
Proof.
  unfold Spark.where_. rewrite list_elem_of_filter.
  by rewrite Is_true_true.
Qed.

Lemma where_nil_iff {A} (cond : A → bool) (df : list A) :
  Spark.where_ cond df = [] ↔ ∀ r, r ∈ df → cond r = false.
Proof.
  split.
  - intros E r Hr. destruct (cond r) eqn:Hc; [|done].
    assert (r ∈ Spark.where_ cond df) as Hin by by apply elem_of_where_.
    rewrite E in Hin. by apply elem_of_nil in Hin.
  - intros H. destruct (Spark.where_ cond df) as [|r l] eqn:E; [done|].
    assert (r ∈ Spark.where_ cond df) as Hin by (rewrite E; left).
    apply elem_of_where_ in Hin as [Hc Hr]. rewrite (H r Hr) in Hc. done.
Qed.

Lemma elem_of_inner_join {A B} (on : A → B → bool) l r a b :
  (a, b) ∈ Spark.inner_join on l r ↔ a ∈ l ∧ b ∈ r ∧ on a b = true.
Proof.
  unfold Spark.inner_join. rewrite list_elem_of_bind. split.
  - intros (a' & Hb & Ha). apply list_elem_of_fmap in Hb as (b' & [= -> ->] & Hb).
    apply elem_of_where_ in Hb. tauto.
  - intros (Ha & Hb & Hon). exists a. split; [|done].
    apply list_elem_of_fmap. exists b. split; [done|]. by apply elem_of_where_.
Qed.

Lemma elem_of_left_join {A B} (on : A → B → bool) l r a ob :
  (a, ob) ∈ Spark.left_join on l r ↔
  a ∈ l ∧ match ob with
          | Some b => b ∈ r ∧ on a b = true
          | None => ∀ b, b ∈ r → on a b = false
          end.
Proof.
  unfold Spark.left_join. rewrite list_elem_of_bind. split.
  - intros (a' & Hb & Ha).
    destruct (Spark.where_ (on a') r) as [|m ms] eqn:E.
    + apply list_elem_of_singleton in Hb as [= -> ->]. split; [done|].
      by apply where_nil_iff.
    + rewrite <- E in Hb.
      apply list_elem_of_fmap in Hb as (b' & [= -> ->] & Hb).
      apply elem_of_where_ in Hb. tauto.
  - intros (Ha & Hob). exists a. split; [|done].
    destruct ob as [b|].
    + destruct Hob as [Hb Hon].
      assert (b ∈ Spark.where_ (on a) r) as Hin by by apply elem_of_where_.
      destruct (Spark.where_ (on a) r) as [|m ms] eqn:E.
      * by apply elem_of_nil in Hin.
      * rewrite <- E. apply list_elem_of_fmap. exists b. by rewrite E.
    + apply where_nil_iff in Hob. rewrite Hob. left.
Qed.

(** A left join never loses a left row. *)
Lemma left_join_keeps {A B} (on : A → B → bool) l r a :
  a ∈ l → ∃ ob, (a, ob) ∈ Spark.left_join on l r.
Proof.
  intros Ha. destruct (Spark.where_ (on a) r) as [|b ms] eqn:E.
  - exists None. apply elem_of_left_join. split; [done|]. by apply where_nil_iff.
  - exists (Some b). apply elem_of_left_join. split; [done|].
    assert (b ∈ Spark.where_ (on a) r) as Hin by (rewrite E; left).
    apply elem_of_where_ in Hin. tauto.
Qed.

Lemma sql_eq_true {A} `{EqDecision A} (a b : option A) :
  Spark.sql_eq a b = true ↔ ∃ x, a = Some x ∧ b = Some x.
Proof.
  unfold Spark.sql_eq. destruct a as [x|], b as [y|]; split;
    try (intros (z & ? & ?)); try discriminate; try done.
  - intros Hd. apply bool_decide_eq_true in Hd as ->. eauto.
  - simplify_eq. by apply bool_decide_eq_true.
Qed.

Lemma number_rows_snd {A} p j (part : list A) :
  (Spark.number_rows p j part).*2 = part.
Proof.
  revert j. induction part as [|r t IH]; intros j; simpl; [done|].
  by rewrite IH.
Qed.

Lemma number_partitions_snd {A} p (parts : list (list A)) :
  (Spark.number_partitions p parts).*2 = concat parts.
Proof.
  revert p. induction parts as [|part rest IH]; intros p; simpl; [done|].
  by rewrite fmap_app, number_rows_snd, IH.
Qed.

(** Numbering the rows adds a column and neither adds nor removes a row. *)
Lemma monotonically_increasing_id_snd {A} (parts : list (list A)) :
  (Spark.monotonically_increasing_id parts).*2 = concat parts.
Proof. apply number_partitions_snd. Qed.

Lemma split_partitions_concat {A} sizes (l : list A) :
  concat (Spark.split_partitions sizes l) = l.
Proof.
  revert l. induction sizes as [|n ns IH]; intros l; simpl.
  - apply app_nil_r.
  - rewrite IH. apply take_drop.
Qed.

Lemma concat_where_ {A} (cond : A → bool) (parts : list (list A)) :
  concat (Spark.where_ cond <$> parts) = Spark.where_ cond (concat parts).
Proof.
  induction parts as [|part rest IH]; [done|].
  rewrite fmap_cons. cbn [concat]. rewrite IH.
  unfold Spark.where_. by rewrite filter_app.
Qed.

Lemma map_rows_concat {A B} (f : A → result B) (parts : list (list A)) ds :
  map_rows (map_rows f) parts = Ok ds →
  map_rows f (concat parts) = Ok (concat ds).
Proof.
  revert ds. induction parts as [|part rest IH]; simpl; intros ds H.
  - by injection H as <-.
  - destruct (map_rows f part) as [ys|] eqn:Hp; [|discriminate].
    destruct (map_rows (map_rows f) rest) as [zs|] eqn:Hr; [|discriminate].
    injection H as <-. simpl. specialize (IH _ eq_refl).
    clear Hr. revert ys Hp. induction part as [|x part IHp]; simpl; intros ys Hp.
    + by injection Hp as <-.
    + destruct (f x) as [y|]; [|discriminate].
      destruct (map_rows f part) as [ys'|]; [|discriminate].
      injection Hp as <-. by rewrite (IHp _ eq_refl).
Qed.

(** ** The whole run, step by step *)

Lemma main_unfold spark s3 st :
  let inp := s3 root_in in
  let df_song := read_song_record <$> song_files inp in
  let df := next_song_df spark inp in
  let st1 :=
    <[artists_path := {| partition_cols := []; contents := ArtistsT (artists_table_of df_song) |}]>
      (<[songs_path := {| partition_cols := ["year"; "artist_id"];
                          contents := SongsT (songs_table_of df_song) |}]> st) in
  main spark s3 st =
    match create_users_table (concat df) with
    | Err e => (st1, Err e)
    | Ok users =>
        let st2 := <[users_path := {| partition_cols := []; contents := UsersT users |}]> st1 in
        match map_rows (map_rows (with_date spark)) df with
        | Err e => (st2, Err e)
        | Ok dated =>
            let time := create_time_table (concat dated) in
            let st3 :=
              <[time_path := {| partition_cols := ["year"; "month"];
                                contents := TimeT time |}]> st2 in
            match create_songplays_dataframe dated with
            | Err e => (st3, Err e)
            | Ok songplay =>
                (<[songplays_path :=
                     {| partition_cols := ["year"; "month"];
                        contents :=
                          SongplaysT
                            (songplays_query songplay time (songs_table_of df_song)
                               (artists_table_of df_song)) |}]> st3,
                 Ok ())
            end
        end
    end.
Proof.
  intros inp df_song df st1. subst inp df_song df st1.
  unfold main, process_song_data, process_log_data, bind, write_parquet,
    load_parquet, lift, next_song_df, root_in.
  change (Py.os_path_join _ "songs/songs.parquet") with songs_path.
  change (Py.os_path_join _ "artists/artists.parquet") with artists_path.
  change (Py.os_path_join _ "users/users.parquet") with users_path.
  change (Py.os_path_join _ "time/time.parquet") with time_path.
  change (Py.os_path_join _ "songplays/songplays.parquet") with songplays_path.
  change (String.eqb "overwrite" "overwrite") with true. cbv iota zeta.
  assert (∀ (m : Store) a b c,
            (<[time_path := a]> (<[users_path := b]> (<[artists_path := c]> m)))
              !! songs_path = m !! songs_path) as Hs.
  { intros. by rewrite !lookup_insert_ne. }
  assert (∀ (m : Store) a b c,
            (<[time_path := a]> (<[users_path := b]> (<[artists_path := c]> m)))
              !! artists_path = Some c) as Ha.
  { intros. rewrite !lookup_insert_ne by done. apply lookup_insert_eq. }
  destruct (create_users_table _) as [users|e]; simpl; [|done].
  destruct (map_rows (map_rows (with_date spark)) _) as [dated|e]; simpl; [|done].
  rewrite Hs, lookup_insert_eq. simpl. rewrite Ha. simpl.
  destruct (create_songplays_dataframe dated) as [songplay|e]; simpl; done.
Qed.

(** A run that returns has computed the five tables and stored them. *)
Lemma main_Ok spark s3 st :
  (main spark s3 st).2 = Ok () →
  ∃ users dated songplay,
    create_users_table (concat (next_song_df spark (s3 root_in))) = Ok users ∧
    map_rows (map_rows (with_date spark)) (next_song_df spark (s3 root_in))
      = Ok dated ∧
    create_songplays_dataframe dated = Ok songplay ∧
    (main spark s3 st).1 =
      final_store st
        (songs_table_of (read_song_record <$> song_files (s3 root_in)))
        (artists_table_of (read_song_record <$> song_files (s3 root_in)))
        users (create_time_table (concat dated))
        (songplays_query songplay (create_time_table (concat dated))
           (songs_table_of (read_song_record <$> song_files (s3 root_in)))
           (artists_table_of (read_song_record <$> song_files (s3 root_in)))).
Proof.
  rewrite main_unfold. cbv zeta.
  destruct (create_users_table _) as [users|e] eqn:Hu; [|discriminate].
  destruct (map_rows (map_rows (with_date spark)) _) as [dated|e] eqn:Hd;
    [|discriminate].
  destruct (create_songplays_dataframe dated) as [songplay|e] eqn:Hp;
    [|discriminate].
  intros _. exists users, dated, songplay. by repeat split.
Qed.

Lemma final_store_lookup st so ar us ti sp :
  final_store st so ar us ti sp !! songs_path
    = Some {| partition_cols := ["year"; "artist_id"]; contents := SongsT so |} ∧
  final_store st so ar us ti sp !! artists_path
    = Some {| partition_cols := []; contents := ArtistsT ar |} ∧
  final_store st so ar us ti sp !! users_path
    = Some {| partition_cols := []; contents := UsersT us |} ∧
  final_store st so ar us ti sp !! time_path
    = Some {| partition_cols := ["year"; "month"]; contents := TimeT ti |} ∧
  final_store st so ar us ti sp !! songplays_path
    = Some {| partition_cols := ["year"; "month"]; contents := SongplaysT sp |}.
Proof.
  unfold final_store.
  repeat split; repeat (rewrite lookup_insert_ne by done); apply lookup_insert_eq.
Qed.

Lemma final_store_other st so ar us ti sp p :
  p ∉ [songs_path; artists_path; users_path; time_path; songplays_path] →
  final_store st so ar us ti sp !! p = st !! p.
Proof.
  intros Hp. unfold final_store.
  rewrite !lookup_insert_ne; [done|..]; intros <-; apply Hp; set_solver.
Qed.

(** The songs and artists tables are stored by every run, also by one that
    fails later on the log data. *)
Lemma main_song_tables spark s3 st :
  (main spark s3 st).1 !! songs_path
    = Some {| partition_cols := ["year"; "artist_id"];
              contents :=
                SongsT (songs_table_of (read_song_record <$> song_files (s3 root_in))) |} ∧
  (main spark s3 st).1 !! artists_path
    = Some {| partition_cols := [];
              contents :=
                ArtistsT (artists_table_of (read_song_record <$> song_files (s3 root_in))) |}.
Proof.
  rewrite main_unfold. cbv zeta.
  destruct (create_users_table _) as [users|e]; simpl.
  2: { split; [by rewrite lookup_insert_ne, lookup_insert_eq
              | by rewrite lookup_insert_eq]. }
  destruct (map_rows (map_rows (with_date spark)) _) as [dated|e]; simpl.
  2: { split; [by rewrite !lookup_insert_ne, lookup_insert_eq by done
              | by rewrite lookup_insert_ne, lookup_insert_eq]. }
  destruct (create_songplays_dataframe dated) as [songplay|e]; simpl.
  - split; [by rewrite !lookup_insert_ne, lookup_insert_eq by done
           | by rewrite !lookup_insert_ne, lookup_insert_eq by done].
  - split; [by rewrite !lookup_insert_ne, lookup_insert_eq by done
           | by rewrite !lookup_insert_ne, lookup_insert_eq by done].
Qed.

Lemma sql_neq_empty (a : option string) :
  Spark.sql_neq a (Some "") = true ↔ ∃ s, a = Some s ∧ s ≠ "".
Proof.
  unfold Spark.sql_neq. destruct a as [s|]; split.
  - intros H. exists s. split; [done|]. intros ->.
    by rewrite bool_decide_eq_true_2 in H.
  - intros (s' & [= <-] & Hne). by rewrite bool_decide_eq_false_2.
  - discriminate.
  - by intros (s' & ? & _).
Qed.

Lemma songs_table_of_spec df r :
  r ∈ songs_table_of df →
  (∃ id, songs.song_id r = Some id ∧ id ≠ "") ∧
  ∃ o, o ∈ df ∧
    songs.song_id r = song_data.song_id o ∧ songs.title r = song_data.title o ∧
    songs.artist_id r = song_data.artist_id o ∧ songs.year r = song_data.year o ∧
    songs.duration r = song_data.duration o.
Proof.
  unfold songs_table_of, Spark.dropDuplicates.
  rewrite elem_of_remove_dups, elem_of_where_, list_elem_of_fmap.
  intros [Hne (o & -> & Ho)]. split; [by apply sql_neq_empty|].
  exists o. by repeat split.
Qed.

Lemma artists_table_of_spec df r :
  r ∈ artists_table_of df →
  (∃ id, artists.artist_id r = Some id ∧ id ≠ "") ∧
  ∃ o, o ∈ df ∧
    artists.artist_id r = song_data.artist_id o ∧
    artists.name r = song_data.artist_name o ∧
    artists.location r = song_data.artist_location o ∧
    artists.lattitude r = song_data.artist_lattitude o ∧
    artists.longitude r = song_data.artist_longitude o.
Proof.
  unfold artists_table_of, Spark.dropDuplicates.
  rewrite elem_of_remove_dups, elem_of_where_, list_elem_of_fmap.
  intros [Hne (o & -> & Ho)]. split; [by apply sql_neq_empty|].
  exists o. by repeat split.
Qed.

(** ** The songs dimension *)

(** C7. Every row of the songs table a run stores has a non-null,
    non-empty [song_id] (the filter comes before the deduplication), and no
    two rows of the table are equal on all columns. *)
Theorem songs_dim_nonempty_id_and_distinct_rows spark s3 st :
  ∃ rows,
    (main spark s3 st).1 !! Py.os_path_join root_out "songs/songs.parquet"
      = Some {| partition_cols := ["year"; "artist_id"]; contents := SongsT rows |} ∧
    rows = songs_table_of (read_song_record <$> song_files (s3 root_in)) ∧
    NoDup rows ∧
    ∀ r, r ∈ rows → ∃ id, songs.song_id r = Some id ∧ id ≠ "".
Proof.
  eexists. split; [apply main_song_tables|]. split; [done|]. split.
  - apply NoDup_remove_dups.
  - intros r Hr. by apply songs_table_of_spec in Hr as [? _].
Qed.

(** ** The output layout *)

Lemma main_result_independent spark s3 st st0 :
  (main spark s3 st0).2 = (main spark s3 st).2.
Proof.
  rewrite !main_unfold. cbv zeta.
  destruct (create_users_table _); [|done].
  destruct (map_rows (map_rows (with_date spark)) _) as [dated|]; [|done].
  by destruct (create_songplays_dataframe dated).
Qed.



(** ** The fact query *)

(** The rows of the query are exactly the selected columns of the joined
    triples: a [songplay] row, a [time] row with the same [start_time], and
    a [songs] row matching on title and duration, or none when no [songs]
    row matches. The [artists] table decides no column and no membership. *)
Lemma elem_of_songplays_query songplay time songs artists r :
  r ∈ songplays_query songplay time songs artists ↔
  ∃ sp t os,
    r = songplays_select sp t os ∧
    sp ∈ songplay ∧ t ∈ time ∧ on_time sp t = true ∧
    match os with
    | Some s => s ∈ songs ∧ on_songs (sp, t) s = true
    | None => ∀ s, s ∈ songs → on_songs (sp, t) s = false
    end.
Proof.
  unfold songplays_query. rewrite list_elem_of_fmap. split.
  - intros ([[[sp t] os] oa] & -> & Hj). simpl.
    apply elem_of_left_join in Hj as [Hj _].
    apply elem_of_left_join in Hj as [Hj Hos].
    apply elem_of_inner_join in Hj as (Hsp & Ht & Hon).
    by exists sp, t, os.
  - intros (sp & t & os & -> & Hsp & Ht & Hon & Hos).
    assert ((sp, t, os) ∈ Spark.left_join on_songs
              (Spark.inner_join on_time songplay time) songs) as Hj.
    { apply elem_of_left_join. split; [by apply elem_of_inner_join|done]. }
    destruct (left_join_keeps on_artists _ artists _ Hj) as [oa Hoa].
    by exists (sp, t, os, oa).
Qed.

Lemma on_songs_true sp t s :
  on_songs (sp, t) s = true ↔
  (∃ title, songplay.song sp = Some title ∧ songs.title s = Some title) ∧
  (∃ d, songplay.length sp = Some d ∧ songs.duration s = Some d).
Proof.
  unfold on_songs. simpl. by rewrite andb_true_iff, !sql_eq_true.
Qed.

(** ** From the log to the views *)

Lemma elem_of_next_song_df spark inp e :
  e ∈ concat (next_song_df spark inp) ↔ is_NextSong e = true ∧ e ∈ log_files inp.
Proof.
  unfold next_song_df.
  by rewrite concat_where_, split_partitions_concat, elem_of_where_.
Qed.

Lemma is_NextSong_true e :
  is_NextSong e = true ↔ log_data.page e = Some "NextSong".
Proof.
  unfold is_NextSong. rewrite sql_eq_true. split.
  - by intros (x & -> & [= <-]).
  - intros ->. by exists "NextSong".
Qed.

Lemma with_date_Ok spark e d :
  with_date spark e = Ok d →
  event d = e ∧
  ∃ n, log_data.ts e = Some n ∧
       timestamp d = Py.int_of_float (Py.truediv n 1000) ∧
       Py.fromtimestamp (local_tz spark) (timestamp d) = Ok (date d).
Proof.
  unfold with_date, get_timestamp, get_datetime.
  destruct (log_data.ts e) as [n|]; simpl; [|discriminate].
  destruct (Py.fromtimestamp _ _) as [dt|] eqn:Hdt; simpl; [|discriminate].
  intros [= <-]. simpl. split; [done|]. by exists n.
Qed.

Lemma dated_complete spark df dated e :
  map_rows (map_rows (with_date spark)) df = Ok dated →
  e ∈ concat df → ∃ d, d ∈ concat dated ∧ with_date spark e = Ok d.
Proof. intros H He. eapply map_rows_elem_l; [by apply map_rows_concat|done]. Qed.

Lemma dated_sound spark df dated d :
  map_rows (map_rows (with_date spark)) df = Ok dated →
  d ∈ concat dated → ∃ e, e ∈ concat df ∧ with_date spark e = Ok d.
Proof. intros H Hd. eapply map_rows_elem_r; [by apply map_rows_concat|done]. Qed.

Lemma songplay_view_complete dated songplay d :
  create_songplays_dataframe dated = Ok songplay →
  d ∈ concat dated →
  ∃ id uid, userid_int (log_data.userId (event d)) = Ok uid ∧
            songplay_select id uid (event d) ∈ songplay.
Proof.
  unfold create_songplays_dataframe. intros H Hd.
  rewrite <- monotonically_increasing_id_snd in Hd.
  apply list_elem_of_fmap in Hd as ([id d'] & -> & Hin).
  destruct (map_rows_elem_l _ _ _ _ H Hin) as (sp & Hsp & Hf). simpl in Hf.
  destruct (userid_int _) as [uid|] eqn:Hu; simpl in Hf; [|discriminate].
  injection Hf as <-. by exists id, uid.
Qed.

Lemma songplay_view_sound dated songplay sp :
  create_songplays_dataframe dated = Ok songplay →
  sp ∈ songplay →
  ∃ id uid d, d ∈ concat dated ∧
              userid_int (log_data.userId (event d)) = Ok uid ∧
              sp = songplay_select id uid (event d).
Proof.
  unfold create_songplays_dataframe. intros H Hsp.
  destruct (map_rows_elem_r _ _ _ _ H Hsp) as ([id d] & Hin & Hf). simpl in Hf.
  destruct (userid_int _) as [uid|] eqn:Hu; simpl in Hf; [|discriminate].
  injection Hf as <-. exists id, uid, d. split; [|done].
  rewrite <- monotonically_increasing_id_snd.
  apply list_elem_of_fmap. by exists (id, d).
Qed.

Lemma users_complete df users e :
  create_users_table df = Ok users →
  e ∈ df →
  ∃ uid, userid_int (log_data.userId e) = Ok uid ∧
         {| users.firstName := log_data.firstName e;
            users.lastName := log_data.lastName e;
            users.gender := log_data.gender e;
            users.level := log_data.level e;
            users.user_id := uid |} ∈ users.
Proof.
  unfold create_users_table, Spark.dropDuplicates. intros H He.
  assert (users_select e ∈ remove_dups (users_select <$> df)) as Hin.
  { apply elem_of_remove_dups, list_elem_of_fmap. by exists e. }
  destruct (map_rows_elem_l _ _ _ _ H Hin) as (u & Hu & Hf).
  unfold users_with_user_id, users_select in Hf. simpl in Hf.
  destruct (userid_int _) as [uid|]; simpl in Hf; [|discriminate].
  injection Hf as <-. by exists uid.
Qed.

Lemma users_sound df users u :
  create_users_table df = Ok users →
  u ∈ users →
  ∃ e, e ∈ df ∧
       userid_int (log_data.userId e) = Ok (users.user_id u) ∧
       users.firstName u = log_data.firstName e ∧
       users.lastName u = log_data.lastName e ∧
       users.gender u = log_data.gender e ∧
       users.level u = log_data.level e.
Proof.
  unfold create_users_table, Spark.dropDuplicates. intros H Hu.
  destruct (map_rows_elem_r _ _ _ _ H Hu) as (r & Hin & Hf).
  apply elem_of_remove_dups, list_elem_of_fmap in Hin as (e & -> & He).
  unfold users_with_user_id, users_select in Hf. simpl in Hf.
  destruct (userid_int _) as [uid|] eqn:Hid; simpl in Hf; [|discriminate].
  injection Hf as <-. by exists e.
Qed.

(** Every play that passes the page filter is in both views of the query,
    with the same [start_time]. *)
Lemma play_in_views spark inp dated songplay e :
  map_rows (map_rows (with_date spark)) (next_song_df spark inp) = Ok dated →
  create_songplays_dataframe dated = Ok songplay →
  e ∈ log_files inp → is_NextSong e = true →
  ∃ id uid d,
    with_date spark e = Ok d ∧
    userid_int (log_data.userId e) = Ok uid ∧
    songplay_select id uid e ∈ songplay ∧
    time_select d ∈ create_time_table (concat dated) ∧
    on_time (songplay_select id uid e) (time_select d) = true.
Proof.
  intros Hd Hp He Hn.
  assert (e ∈ concat (next_song_df spark inp)) as Hin
    by by apply elem_of_next_song_df.
  destruct (dated_complete _ _ _ _ Hd Hin) as (d & Hdin & Hwd).
  destruct (songplay_view_complete _ _ _ Hp Hdin) as (id & uid & Hu & Hsp).
  destruct (with_date_Ok _ _ _ Hwd) as (Hev & n & Hts & _).
  rewrite Hev in Hu, Hsp. exists id, uid, d. repeat split; [done..| |].
  - unfold create_time_table. apply list_elem_of_fmap. by exists d.
  - unfold on_time. simpl. rewrite Hev, Hts. by apply bool_decide_eq_true.
Qed.

(** ** Fact resolution *)

Lemma fact_of_play_select e id uid t os :
  userid_int (log_data.userId e) = Ok uid →
  fact_of_play e (songplays_select (songplay_select id uid e) t os).
Proof. intros H. by repeat split. Qed.






(** ** The user id *)

Lemma digitpart_rejects acc after l c :
  c ∈ l → Py.digit c = None → Py.is_underscore c = false →
  Py.digitpart acc after l = None.
Proof.
  intros Hc Hd Hu. revert acc after.
  induction l as [|x l IH]; intros acc after; [by apply elem_of_nil in Hc|].
  apply elem_of_cons in Hc as [<-|Hc]; simpl.
  - by rewrite Hd, Hu.
  - destruct (Py.digit x); [by apply IH|].
    destruct (Py.is_underscore x && after); [by apply IH|done].
Qed.

(** [int] rejects every text that, once trimmed, holds a character other
    than a digit, an underscore or a sign. *)
Lemma int_of_str_rejects s c :
  c ∈ Py.rstrip (Py.lstrip (list_ascii_of_string s)) →
  Py.digit c = None → Py.is_underscore c = false →
  nat_of_ascii c ≠ 45%nat → nat_of_ascii c ≠ 43%nat →
  Py.int_of_str s = Err ValueError.
Proof.
  intros Hc Hd Hu Hm Hp. unfold Py.int_of_str, Py.signed.
  destruct (Py.rstrip _) as [|x l]; [done|].
  assert (Py.digitpart 0 false (x :: l) = None) as Hall
    by by eapply digitpart_rejects.
  apply elem_of_cons in Hc as [<-|Hc].
  - apply Nat.eqb_neq in Hm, Hp. by rewrite Hm, Hp, Hall.
  - rewrite (digitpart_rejects 0 false l c Hc Hd Hu), Hall.
    by repeat case_match.
Qed.

Lemma userid_int_Err x err :
  userid_int x = Err err → err = ValueError ∨ err = AttributeError.
Proof.
  unfold userid_int, Py.int_of_str. destruct x as [s|]; [|intros [= <-]; by right].
  destruct (Py.signed _); [discriminate|]. intros [= <-]. by left.
Qed.

Lemma create_users_table_Err df err :
  create_users_table df = Err err → err = ValueError ∨ err = AttributeError.
Proof.
  unfold create_users_table. intros H.
  apply map_rows_Err in H as (r & _ & Hr). unfold users_with_user_id in Hr.
  destruct (userid_int _) eqn:Hu; simpl in Hr; [discriminate|].
  injection Hr as <-. by eapply userid_int_Err.
Qed.

Lemma create_users_table_raises df e err :
  e ∈ df → userid_int (log_data.userId e) = Err err →
  ∃ err', create_users_table df = Err err'.
Proof.
  intros He Herr. unfold create_users_table.
  apply (map_rows_raises _ _ (users_select e) err).
  - apply elem_of_remove_dups, list_elem_of_fmap. by exists e.
  - unfold users_with_user_id, users_select. simpl. by rewrite Herr.
Qed.



(** ** The page filter *)

(** C8. After a run that returns, every row of the stored users, time and
    fact tables is derived from a log record whose page is NextSong: a
    record with another page, or none, is the source of no row. *)
Theorem rows_come_from_next_song_records spark s3 st :
  (main spark s3 st).2 = Ok () →
  ∃ users time facts,
    (main spark s3 st).1 !! Py.os_path_join root_out "users/users.parquet"
      = Some {| partition_cols := []; contents := UsersT users |} ∧
    (main spark s3 st).1 !! Py.os_path_join root_out "time/time.parquet"
      = Some {| partition_cols := ["year"; "month"]; contents := TimeT time |} ∧
    (main spark s3 st).1 !! Py.os_path_join root_out "songplays/songplays.parquet"
      = Some {| partition_cols := ["year"; "month"]; contents := SongplaysT facts |} ∧
    (∀ u, u ∈ users →
       ∃ e, e ∈ log_files (s3 root_in) ∧ log_data.page e = Some "NextSong" ∧
            userid_int (log_data.userId e) = Ok (users.user_id u) ∧
            users.firstName u = log_data.firstName e ∧
            users.lastName u = log_data.lastName e ∧
            users.gender u = log_data.gender e ∧
            users.level u = log_data.level e) ∧
    (∀ t, t ∈ time →
       ∃ e d, e ∈ log_files (s3 root_in) ∧ log_data.page e = Some "NextSong" ∧
              with_date spark e = Ok d ∧ t = time_select d) ∧
    (∀ r, r ∈ facts →
       ∃ e, e ∈ log_files (s3 root_in) ∧ log_data.page e = Some "NextSong" ∧
            fact_of_play e r).
Proof.
  intros Hok.
  destruct (main_Ok spark s3 st Hok) as (users & dated & songplay & Hu & Hd & Hp & Hst).
  change (Py.os_path_join root_out "users/users.parquet") with users_path.
  change (Py.os_path_join root_out "time/time.parquet") with time_path.
  change (Py.os_path_join root_out "songplays/songplays.parquet") with songplays_path.
  rewrite Hst.
  set (songs := songs_table_of _). set (artists := artists_table_of _).
  exists users, (create_time_table (concat dated)),
    (songplays_query songplay (create_time_table (concat dated)) songs artists).
  destruct (final_store_lookup st songs artists users (create_time_table (concat dated))
              (songplays_query songplay (create_time_table (concat dated)) songs artists))
    as (_ & _ & H3 & H4 & H5).
  do 3 (split; [done|]).
  assert (∀ d, d ∈ concat dated →
            ∃ e, e ∈ log_files (s3 root_in) ∧ log_data.page e = Some "NextSong" ∧
                 with_date spark e = Ok d) as Hsrc.
  { intros d Hin. destruct (dated_sound _ _ _ _ Hd Hin) as (e & He & Hwd).
    apply elem_of_next_song_df in He as [Hn He]. apply is_NextSong_true in Hn.
    by exists e. }
  split; [|split].
  - intros u Hin. destruct (users_sound _ _ _ Hu Hin) as (e & He & Hrest).
    apply elem_of_next_song_df in He as [Hn He]. apply is_NextSong_true in Hn.
    by exists e.
  - intros t Hin. unfold create_time_table in Hin.
    apply list_elem_of_fmap in Hin as (d & -> & Hin).
    destruct (Hsrc d Hin) as (e & He & Hn & Hwd). by exists e, d.
  - intros r Hin.
    apply elem_of_songplays_query in Hin as (sp & t & os & -> & Hsp & _).
    destruct (songplay_view_sound _ _ _ Hp Hsp) as (id & uid & d & Hin & Huid & ->).
    destruct (Hsrc d Hin) as (e & He & Hn & Hwd).
    destruct (with_date_Ok _ _ _ Hwd) as [Hev _]. rewrite Hev in *.
    exists e. split; [done|]. split; [done|]. by apply fact_of_play_select.
Qed.

(** C8 at work: a log with one play and one visit of the home page. *)
Lemma rows_come_from_next_song_records_witness :
  (main utc test_bucket_with_home ∅).2 = Ok () ∧
  ∃ facts,
    (main utc test_bucket_with_home ∅).1
      !! Py.os_path_join root_out "songplays/songplays.parquet"
      = Some {| partition_cols := ["year"; "month"]; contents := SongplaysT facts |} ∧
    ∀ r, r ∈ facts →
      ∃ e, e ∈ log_files (test_bucket_with_home root_in) ∧
           log_data.page e = Some "NextSong" ∧ fact_of_play e r.
Proof.
  assert ((main utc test_bucket_with_home ∅).2 = Ok ()) as H
    by (vm_compute; reflexivity).
  split; [exact H|].
  destruct (rows_come_from_next_song_records utc test_bucket_with_home ∅ H)
    as (users & time & facts & _ & _ & Hf & _ & _ & Hfacts).
  exists facts. split; [exact Hf | exact Hfacts].
Defined.

(** ** Timestamps and the time dimension *)

(** The seconds of a timestamp: the milliseconds divided by 1000, rounded
    toward zero. *)
Lemma get_timestamp_quot ts :
  get_timestamp (Some ts) = Ok (Z.quot ts 1000).
Proof.
  unfold get_timestamp, Py.int_of_float, Py.truediv. simpl.
  by rewrite Z.mul_1_r.
Qed.

Lemma get_timestamp_toward_zero :
  get_timestamp (Some 1541717732796) = Ok 1541717732 ∧
  get_timestamp (Some (-1500)) = Ok (-1).
Proof. split; reflexivity. Qed.

(** Every fact row finds at least one time row with its start_time. *)
Lemma fact_start_time_in_time songplay time songs artists r :
  r ∈ songplays_query songplay time songs artists →
  ∃ t, t ∈ time ∧
       Spark.sql_eq (songplays.start_time r) (time.start_time t) = true.
Proof.
  intros Hr. apply elem_of_songplays_query in Hr
    as (sp & t & os & -> & _ & Ht & Hon & _).
  by exists t.
Qed.

(** C5. The seconds of 1541717732796 ms are 1541717732, as claimed, but a
    start_time does not always find exactly one time row: the time table
    is not deduplicated, so for two plays in the same millisecond it has two
    rows with that start_time, each fact row matches both, and the fact
    table has four rows for the two plays. *)
Theorem simultaneous_plays_match_two_time_rows :
  get_timestamp (Some 1541717732796) = Ok 1541717732 ∧
  ∃ time facts,
    (main utc (bucket [test_song] simultaneous_plays) ∅).1
      !! Py.os_path_join root_out "time/time.parquet"
      = Some {| partition_cols := ["year"; "month"]; contents := TimeT time |} ∧
    (main utc (bucket [test_song] simultaneous_plays) ∅).1
      !! Py.os_path_join root_out "songplays/songplays.parquet"
      = Some {| partition_cols := ["year"; "month"]; contents := SongplaysT facts |} ∧
    length facts = 4%nat ∧
    ∀ r, r ∈ facts →
      length (Spark.where_
                (λ t, Spark.sql_eq (songplays.start_time r) (time.start_time t))
                time) = 2%nat.
Proof.
  split; [reflexivity|].
  eexists _, _. split; [vm_compute; reflexivity|].
  split; [vm_compute; reflexivity|]. split; [reflexivity|].
  intros r Hr.
  repeat (apply elem_of_cons in Hr as [->|Hr]; [vm_compute; reflexivity|]).
  by apply elem_of_nil in Hr.
Qed.

(** ** The users dimension *)

(** C2. The users table can hold the same row twice: duplicates are dropped
    while the id is still text, so "15" and " 15" survive as two rows, and
    both become user 15. *)
Theorem users_dim_repeats_a_row :
  ∃ u,
    create_users_table padded_twice = Ok [u; u] ∧
    (main utc (bucket [test_song] padded_twice) ∅).1
      !! Py.os_path_join root_out "users/users.parquet"
      = Some {| partition_cols := []; contents := UsersT [u; u] |} ∧
    users.user_id u = 15 ∧
    ¬ NoDup [u; u].
Proof.
  eexists. split; [vm_compute; reflexivity|].
  split; [vm_compute; reflexivity|]. split; [reflexivity|].
  intros H. apply NoDup_cons in H as [H _]. apply H. left.
Qed.

(** ** The artists dimension *)

(** C6. The artists table has no column [latitude]: its fourth column is
    [lattitude], read from a field [artist_lattitude] that a song record
    does not have, so the value of the record's [artist_latitude] is lost
    and the column is null. The other columns are as claimed. *)
Theorem artists_dim_latitude_lost :
  test_song !! "artist_latitude" = Some (JDec 3514968) ∧
  (main utc test_bucket ∅).1 !! Py.os_path_join root_out "artists/artists.parquet"
    = Some {| partition_cols := [];
              contents :=
                ArtistsT
                  [ {| artists.artist_id := Some "A1";
                       artists.name := Some "Test Artist";
                       artists.location := Some "Memphis";
                       artists.lattitude := None;
                       artists.longitude := Some (-9004892) |} ] |} ∧
  ("latitude" ∉ artists.columns) ∧
  ("artist_latitude" ∉ song_data_struct_type.*1).
Proof.
  split; [vm_compute; reflexivity|]. split; [vm_compute; reflexivity|].
  split; unfold artists.columns, song_data_struct_type; simpl;
    rewrite !not_elem_of_cons; repeat split; try discriminate;
    apply not_elem_of_nil.
Qed.

(** ** Running twice *)

Lemma next_song_df_concat spark inp :
  concat (next_song_df spark inp) = Spark.where_ is_NextSong (log_files inp).
Proof. unfold next_song_df. by rewrite concat_where_, split_partitions_concat. Qed.

Lemma elem_of_concat {A} (x : A) (parts : list (list A)) part :
  part ∈ parts → x ∈ part → x ∈ concat parts.
Proof.
  intros Hp Hx. induction parts as [|q rest IH]; [by apply elem_of_nil in Hp|].
  simpl. apply elem_of_app. apply elem_of_cons in Hp as [<-|Hp]; [by left|].
  right. by apply IH.
Qed.

Lemma map_rows_concat_Err {A B} (f : A → result B) (parts : list (list A)) e :
  map_rows (map_rows f) parts = Err e → ∃ e', map_rows f (concat parts) = Err e'.
Proof.
  intros H. apply map_rows_Err in H as (part & Hpart & H).
  apply map_rows_Err in H as (x & Hx & Hf).
  apply (map_rows_raises f _ x e); [|done].
  by apply elem_of_concat with part.
Qed.

Lemma with_date_ext spark spark' e :
  (∀ x, local_tz spark' x = local_tz spark x) →
  with_date spark' e = with_date spark e.
Proof.
  intros Htz. unfold with_date, get_datetime, Py.fromtimestamp.
  destruct (get_timestamp _) as [t|]; simpl; [|done]. by rewrite Htz.
Qed.

(** What a run leaves at the users path and at the time path, in terms of
    the plays alone: the partitioning of the log plays no part. *)
Lemma main_users_lookup spark s3 st :
  (main spark s3 st).1 !! users_path =
    match create_users_table (Spark.where_ is_NextSong (log_files (s3 root_in))) with
    | Ok users => Some {| partition_cols := []; contents := UsersT users |}
    | Err _ => st !! users_path
    end.
Proof.
  rewrite main_unfold. cbv zeta. rewrite next_song_df_concat.
  destruct (create_users_table _) as [users|e]; simpl.
  2: { by rewrite !lookup_insert_ne. }
  destruct (map_rows (map_rows (with_date spark)) _) as [dated|e]; simpl.
  2: { by rewrite lookup_insert_eq. }
  destruct (create_songplays_dataframe dated) as [songplay|e]; simpl.
  - by rewrite !lookup_insert_ne, lookup_insert_eq by done.
  - by rewrite !lookup_insert_ne, lookup_insert_eq by done.
Qed.

Lemma main_time_lookup spark s3 st :
  (main spark s3 st).1 !! time_path =
    match create_users_table (Spark.where_ is_NextSong (log_files (s3 root_in))) with
    | Err _ => st !! time_path
    | Ok _ =>
        match map_rows (with_date spark)
                (Spark.where_ is_NextSong (log_files (s3 root_in))) with
        | Ok ds => Some {| partition_cols := ["year"; "month"];
                           contents := TimeT (create_time_table ds) |}
        | Err _ => st !! time_path
        end
    end.
Proof.
  rewrite main_unfold. cbv zeta. rewrite <- !next_song_df_concat with (spark := spark).
  destruct (create_users_table _) as [users|e]; simpl.
  2: { by rewrite !lookup_insert_ne. }
  destruct (map_rows (map_rows (with_date spark)) _) as [dated|e] eqn:Hd; simpl.
  2: { apply map_rows_concat_Err in Hd as [e' ->]. by rewrite !lookup_insert_ne. }
  rewrite (map_rows_concat _ _ _ Hd).
  destruct (create_songplays_dataframe dated) as [songplay|e]; simpl.
  - by rewrite lookup_insert_ne, lookup_insert_eq by done.
  - by rewrite lookup_insert_eq.
Qed.

(** C9 (counterexample). Idempotence for every input fails when the second
    run is on a machine in another time zone: the hour of the time row differs. *)
Lemma rerun_in_another_time_zone_differs :
  (main utc_plus_1 test_bucket (main utc test_bucket ∅).1).1
  ≠ (main utc test_bucket ∅).1.
Proof.
  intros H. apply (f_equal (λ m : Store, m !! time_path)) in H.
  vm_compute in H. discriminate H.
Qed.

(** C9 (amended). A second run on unchanged input in the same environment
    (machine time zone, partitioning of the log) leaves the store, and
    returns or raises, as the first did. In any other environment the
    second run still leaves the same songs, artists and users tables, and
    the same time table when the time zone is the same. *)
Theorem rerun_idempotent_in_same_environment spark spark' s3 st :
  main spark s3 (main spark s3 st).1 = main spark s3 st ∧
  (main spark' s3 (main spark s3 st).1).1 !! Py.os_path_join root_out "songs/songs.parquet"
    = (main spark s3 st).1 !! Py.os_path_join root_out "songs/songs.parquet" ∧
  (main spark' s3 (main spark s3 st).1).1 !! Py.os_path_join root_out "artists/artists.parquet"
    = (main spark s3 st).1 !! Py.os_path_join root_out "artists/artists.parquet" ∧
  (main spark' s3 (main spark s3 st).1).1 !! Py.os_path_join root_out "users/users.parquet"
    = (main spark s3 st).1 !! Py.os_path_join root_out "users/users.parquet" ∧
  ((∀ x, local_tz spark' x = local_tz spark x) →
   (main spark' s3 (main spark s3 st).1).1 !! Py.os_path_join root_out "time/time.parquet"
     = (main spark s3 st).1 !! Py.os_path_join root_out "time/time.parquet").
Proof.
  change (Py.os_path_join root_out "songs/songs.parquet") with songs_path.
  change (Py.os_path_join root_out "artists/artists.parquet") with artists_path.
  change (Py.os_path_join root_out "users/users.parquet") with users_path.
  change (Py.os_path_join root_out "time/time.parquet") with time_path.
  split; [|split; [|split; [|split]]].
  - rewrite !main_unfold. cbv zeta.
    destruct (create_users_table _) as [users|e]; simpl.
    2: { f_equal. apply map_eq. intros p. rewrite !lookup_insert.
         repeat case_decide; done. }
    destruct (map_rows (map_rows (with_date spark)) _) as [dated|e]; simpl.
    2: { f_equal. apply map_eq. intros p. rewrite !lookup_insert.
         repeat case_decide; done. }
    destruct (create_songplays_dataframe dated) as [songplay|e]; simpl.
    + f_equal. apply map_eq. intros p. rewrite !lookup_insert.
      repeat case_decide; done.
    + f_equal. apply map_eq. intros p. rewrite !lookup_insert.
      repeat case_decide; done.
  - destruct (main_song_tables spark' s3 (main spark s3 st).1) as [-> _].
    by destruct (main_song_tables spark s3 st) as [-> _].
  - destruct (main_song_tables spark' s3 (main spark s3 st).1) as [_ ->].
    by destruct (main_song_tables spark s3 st) as [_ ->].
  - rewrite main_users_lookup, (main_users_lookup spark s3 st).
    by destruct (create_users_table _).
  - intros Htz.
    rewrite main_time_lookup, (main_time_lookup spark s3 st).
    rewrite (map_rows_ext (with_date spark') (with_date spark))
      by (intros e; by apply with_date_ext).
    destruct (create_users_table _); [|done].
    by destruct (map_rows (with_date spark) _).
Qed.

(** C9 at work: two runs on UTC. *)
Lemma rerun_idempotent_in_same_environment_witness :
  (∀ x, local_tz utc x = local_tz utc x) ∧
  (main utc test_bucket (main utc test_bucket ∅).1).1
    !! Py.os_path_join root_out "time/time.parquet"
  = (main utc test_bucket ∅).1 !! Py.os_path_join root_out "time/time.parquet".
Proof.
  split; [reflexivity|].
  destruct (rerun_idempotent_in_same_environment utc utc test_bucket ∅)
    as (_ & _ & _ & _ & Htime).
  apply Htime. reflexivity.
Defined.

(** * Further properties of the code *)

(** ** Paths under an output root *)

Lemma append_assoc_string (a b c : string) :
  String.append a (String.append b c) = String.append (String.append a b) c.
Proof.
  induction a as [|x a IH]; [done|].
  change (String x (String.append a (String.append b c))
          = String x (String.append (String.append a b) c)).
  by f_equal.
Qed.

Lemma append_inj_r (a b c : string) :
  String.append a b = String.append a c → b = c.
Proof.
  induction a as [|x a IH]; [done|].
  change (String x (String.append a b) = String x (String.append a c) → b = c).
  intros [= H]. by apply IH.
Qed.

(** A relative name is appended to the root, with one separator when the
    root does not end with one. *)
Lemma os_path_join_relative a :
  ∃ pre, ∀ b, Py.starts_with_slash b = false →
              Py.os_path_join a b = String.append pre b.
Proof.
  destruct (Py.ends_with_slash a || String.eqb a "") eqn:E.
  - exists a. intros b Hb. unfold Py.os_path_join. by rewrite Hb, E.
  - exists (String.append a "/"). intros b Hb. unfold Py.os_path_join.
    rewrite Hb, E. apply append_assoc_string.
Qed.

Lemma os_path_join_inj a b c :
  Py.starts_with_slash b = false → Py.starts_with_slash c = false →
  Py.os_path_join a b = Py.os_path_join a c → b = c.
Proof.
  intros Hb Hc. destruct (os_path_join_relative a) as [pre Hpre].
  rewrite (Hpre b Hb), (Hpre c Hc). apply append_inj_r.
Qed.

Ltac paths_differ :=
  let H := fresh in
  intros H; apply os_path_join_inj in H; [discriminate H | reflexivity | reflexivity].

(** ** The two stages on their own, under any output root *)


(** The log stage, step by step, on any store and under any root. *)
Lemma process_log_data_unfold spark input_data output_data st :
  let df := next_song_df spark input_data in
  let Pu := Py.os_path_join output_data "users/users.parquet" in
  let Pt := Py.os_path_join output_data "time/time.parquet" in
  let Ps := Py.os_path_join output_data "songs/songs.parquet" in
  let Pa := Py.os_path_join output_data "artists/artists.parquet" in
  let Pf := Py.os_path_join output_data "songplays/songplays.parquet" in
  process_log_data spark input_data output_data st =
    match create_users_table (concat df) with
    | Err e => (st, Err e)
    | Ok users =>
        let st2 := <[Pu := {| partition_cols := []; contents := UsersT users |}]> st in
        match map_rows (map_rows (with_date spark)) df with
        | Err e => (st2, Err e)
        | Ok dated =>
            let time := create_time_table (concat dated) in
            let st3 := <[Pt := {| partition_cols := ["year"; "month"];
                                  contents := TimeT time |}]> st2 in
            match st !! Ps with
            | None => (st3, Err AnalysisException)
            | Some ds =>
                match as_songs (contents ds) with
                | Err e => (st3, Err e)
                | Ok songs =>
                    match st !! Pa with
                    | None => (st3, Err AnalysisException)
                    | Some da =>
                        match as_artists (contents da) with
                        | Err e => (st3, Err e)
                        | Ok artists =>
                            match create_songplays_dataframe dated with
                            | Err e => (st3, Err e)
                            | Ok songplay =>
                                (<[Pf := {| partition_cols := ["year"; "month"];
                                            contents :=
                                              SongplaysT
                                                (songplays_query songplay time songs artists) |}]> st3,
                                 Ok ())
                            end
                        end
                    end
                end
            end
        end
    end.
Proof.
  intros df Pu Pt Ps Pa Pf.
  assert (Pt ≠ Ps) as H1 by (subst Pt Ps; paths_differ).
  assert (Pu ≠ Ps) as H2 by (subst Pu Ps; paths_differ).
  assert (Pt ≠ Pa) as H3 by (subst Pt Pa; paths_differ).
  assert (Pu ≠ Pa) as H4 by (subst Pu Pa; paths_differ).
  unfold process_log_data, bind, write_parquet, load_parquet, lift.
  change (String.eqb "overwrite" "overwrite") with true. cbv iota zeta.
  fold (next_song_df spark input_data). fold df. fold Pu Pt Ps Pa Pf.
  destruct (create_users_table (concat df)) as [users|e]; simpl; [|done].
  destruct (map_rows (map_rows (with_date spark)) df) as [dated|e]; simpl; [|done].
  rewrite !lookup_insert_ne by done.
  destruct (st !! Ps) as [ds|]; simpl; [|done].
  destruct (as_songs (contents ds)) as [songs|e]; simpl; [|done].
  rewrite !lookup_insert_ne by done.
  destruct (st !! Pa) as [da|]; simpl; [|done].
  destruct (as_artists (contents da)) as [artists|e]; simpl; [|done].
  by destruct (create_songplays_dataframe dated) as [songplay|e].
Qed.

(** ** When a run returns, and what a failed run leaves *)

Lemma map_rows_total {A B} (f : A → result B) (l : list A) :
  (∀ x, x ∈ l → ∃ y, f x = Ok y) → ∃ ys, map_rows f l = Ok ys.
Proof.
  intros H. destruct (map_rows f l) as [ys|e] eqn:E; [eauto|].
  apply map_rows_Err in E as (x & Hx & Hf).
  destruct (H x Hx) as [y Hy]. congruence.
Qed.

Lemma map_rows_parts_total {A B} (f : A → result B) (parts : list (list A)) :
  (∀ x, x ∈ concat parts → ∃ y, f x = Ok y) →
  ∃ ds, map_rows (map_rows f) parts = Ok ds.
Proof.
  intros H. destruct (map_rows (map_rows f) parts) as [ds|e] eqn:E; [eauto|].
  apply map_rows_Err in E as (part & Hpart & E).
  apply map_rows_Err in E as (x & Hx & Hf).
  destruct (H x (elem_of_concat x parts part Hpart Hx)) as [y Hy]. congruence.
Qed.

Lemma create_users_table_total df :
  (∀ e, e ∈ df → ∃ n, userid_int (log_data.userId e) = Ok n) →
  ∃ users, create_users_table df = Ok users.
Proof.
  intros H. unfold create_users_table. apply map_rows_total.
  intros r Hr. apply elem_of_remove_dups, list_elem_of_fmap in Hr as (e & -> & He).
  destruct (H e He) as [n Hn]. unfold users_with_user_id, users_select. simpl.
  rewrite Hn. simpl. eauto.
Qed.

(** Once the users table has been built, building the [songplay] view
    cannot raise: it parses the same ids. *)
Lemma songplays_after_users spark inp users dated :
  create_users_table (concat (next_song_df spark inp)) = Ok users →
  map_rows (map_rows (with_date spark)) (next_song_df spark inp) = Ok dated →
  ∃ songplay, create_songplays_dataframe dated = Ok songplay.
Proof.
  intros Hu Hd. unfold create_songplays_dataframe. apply map_rows_total.
  intros [id d] Hin. simpl.
  assert (d ∈ concat dated) as Hdin.
  { rewrite <- monotonically_increasing_id_snd. apply list_elem_of_fmap.
    by exists (id, d). }
  destruct (dated_sound _ _ _ _ Hd Hdin) as (e & He & Hwd).
  destruct (with_date_Ok _ _ _ Hwd) as [-> _].
  destruct (users_complete _ _ _ Hu He) as (n & -> & _). simpl. eauto.
Qed.





(** X4. The log stage cannot return without the datasets of the song stage:
    on a store with no songs dataset, or no artists dataset, under its
    output root it raises (after the users and time writes, if those
    succeed) and writes no fact table. *)
Theorem log_stage_needs_song_stage spark input_data output_data st :
  st !! Py.os_path_join output_data "songs/songs.parquet" = None ∨
  st !! Py.os_path_join output_data "artists/artists.parquet" = None →
  (∃ err, (process_log_data spark input_data output_data st).2 = Err err) ∧
  (process_log_data spark input_data output_data st).1
    !! Py.os_path_join output_data "songplays/songplays.parquet"
  = st !! Py.os_path_join output_data "songplays/songplays.parquet".
Proof.
  intros Hmissing. rewrite process_log_data_unfold. cbv zeta.
  assert (Py.os_path_join output_data "time/time.parquet"
          ≠ Py.os_path_join output_data "songplays/songplays.parquet") as H1
    by paths_differ.
  assert (Py.os_path_join output_data "users/users.parquet"
          ≠ Py.os_path_join output_data "songplays/songplays.parquet") as H2
    by paths_differ.
  destruct (create_users_table _) as [users|e]; simpl; [|by eauto].
  destruct (map_rows (map_rows (with_date spark)) _) as [dated|e]; simpl.
  2: { split; [by eauto|]. by rewrite lookup_insert_ne. }
  destruct (st !! Py.os_path_join output_data "songs/songs.parquet") as [ds|] eqn:Hs;
    simpl.
  2: { split; [by eauto|]. by rewrite !lookup_insert_ne. }
  destruct (as_songs (contents ds)) as [songs|e]; simpl.
  2: { split; [by eauto|]. by rewrite !lookup_insert_ne. }
  destruct Hmissing as [?| ->]; [done|]. simpl.
  split; [by eauto|]. by rewrite !lookup_insert_ne.
Qed.

Lemma log_stage_needs_song_stage_witness :
  ∃ err, (process_log_data utc (test_bucket root_in) root_out ∅).2 = Err err.
Proof.
  destruct (log_stage_needs_song_stage utc (test_bucket root_in) root_out ∅)
    as [H _]; [left; reflexivity | exact H].
Defined.

(** ** The song-side dimensions, record by record *)

(** X5. Every row of the artists table a run stores has a non-null,
    non-empty [artist_id], and no two rows are equal on all columns; the
    table is stored also by a run that fails later on the log data. *)
Theorem artists_dim_nonempty_id_and_distinct_rows spark s3 st :
  ∃ rows,
    (main spark s3 st).1 !! Py.os_path_join root_out "artists/artists.parquet"
      = Some {| partition_cols := []; contents := ArtistsT rows |} ∧
    rows = artists_table_of (read_song_record <$> song_files (s3 root_in)) ∧
    NoDup rows ∧
    ∀ r, r ∈ rows → ∃ id, artists.artist_id r = Some id ∧ id ≠ "".
Proof.
  eexists. split; [apply main_song_tables|]. split; [done|]. split.
  - apply NoDup_remove_dups.
  - intros r Hr. by apply artists_table_of_spec in Hr as [? _].
Qed.


(** ** The generated ids *)

Lemma map_rows_fmap {A B C} (f : A → result B) (g : B → C) (h : A → C) l ys :
  map_rows f l = Ok ys → (∀ x y, f x = Ok y → g y = h x) → g <$> ys = h <$> l.
Proof.
  intros H Hgh. apply map_rows_Ok in H.
  induction H as [|x y l ys Hxy _ IH]; [done|].
  rewrite !fmap_cons. by rewrite IH, (Hgh x y Hxy).
Qed.

Lemma number_rows_fst_bounds {A} p j (part : list A) id :
  id ∈ (Spark.number_rows p j part).*1 →
  Z.shiftl p 33 + j ≤ id < Z.shiftl p 33 + j + Z.of_nat (length part).
Proof.
  revert j. induction part as [|r t IH]; intros j; simpl.
  - intros H. by apply elem_of_nil in H.
  - intros H. apply elem_of_cons in H as [->|H]; [lia|].
    apply IH in H. lia.
Qed.

Lemma number_rows_NoDup {A} p j (part : list A) :
  NoDup (Spark.number_rows p j part).*1.
Proof.
  revert j. induction part as [|r t IH]; intros j; simpl; [constructor|].
  constructor; [|apply IH].
  intros H. apply number_rows_fst_bounds in H. lia.
Qed.

Lemma number_partitions_NoDup {A} p (parts : list (list A)) :
  0 ≤ p →
  Forall (λ part, Z.of_nat (length part) ≤ 2 ^ 33) parts →
  NoDup (Spark.number_partitions p parts).*1 ∧
  ∀ id, id ∈ (Spark.number_partitions p parts).*1 → Z.shiftl p 33 ≤ id.
Proof.
  intros Hp Hsz. revert p Hp.
  induction Hsz as [|part rest Hlen _ IH]; intros p Hp; simpl.
  - split; [constructor|]. intros id H. by apply elem_of_nil in H.
  - destruct (IH (p + 1)) as [Hnd Hge]; [lia|].
    assert (Z.shiftl (p + 1) 33 = Z.shiftl p 33 + 2 ^ 33) as Hnext.
    { rewrite !Z.shiftl_mul_pow2 by lia. lia. }
    rewrite fmap_app. split.
    + apply NoDup_app. split; [apply number_rows_NoDup|]. split; [|done].
      intros id H1 H2. apply number_rows_fst_bounds in H1. apply Hge in H2. lia.
    + intros id H. apply elem_of_app in H as [H|H].
      * apply number_rows_fst_bounds in H. lia.
      * apply Hge in H. lia.
Qed.

(** X7. The [songplay] view has one row for every row of the log dataframe
    it is built from, and while no partition holds more than 2^33 rows the
    generated [songplay_id]s are pairwise distinct. (They are not
    consecutive: the first id of partition [p] is [p * 2^33].) *)
Theorem songplay_ids_distinct df_log_data songplay :
  create_songplays_dataframe df_log_data = Ok songplay →
  Forall (λ part, Z.of_nat (length part) ≤ 2 ^ 33) df_log_data →
  length songplay = length (concat df_log_data) ∧
  NoDup (songplay.songplay_id <$> songplay).
Proof.
  unfold create_songplays_dataframe. intros H Hsz. split.
  - rewrite <- (monotonically_increasing_id_snd df_log_data).
    rewrite length_fmap. apply map_rows_Ok in H. symmetry.
    by eapply Forall2_length.
  - rewrite (map_rows_fmap _ songplay.songplay_id fst _ _ H).
    + by apply number_partitions_NoDup.
    + intros [id d] sp. simpl.
      destruct (userid_int _); simpl; [|discriminate]. by intros [= <-].
Qed.

Lemma songplay_ids_distinct_witness :
  ∃ songplay,
    create_songplays_dataframe [[test_dated]; [test_dated; test_dated]] = Ok songplay ∧
    songplay.songplay_id <$> songplay = [0; 8589934592; 8589934593] ∧
    NoDup (songplay.songplay_id <$> songplay).
Proof.
  eexists. split; [vm_compute; reflexivity|]. split; [reflexivity|].
  apply (songplay_ids_distinct [[test_dated]; [test_dated; test_dated]]).
  - vm_compute. reflexivity.
  - repeat constructor; simpl; lia.
Defined.

(** ** Fact rows against the time and users tables *)

Lemma where_cons {A} (cond : A → bool) x (l : list A) :
  Spark.where_ cond (x :: l)
  = if cond x then x :: Spark.where_ cond l else Spark.where_ cond l.
Proof.
  unfold Spark.where_. rewrite filter_cons. by destruct (cond x).
Qed.

Lemma plays_dated spark inp dated :
  map_rows (map_rows (with_date spark)) (next_song_df spark inp) = Ok dated →
  map_rows (with_date spark) (Spark.where_ is_NextSong (log_files inp))
  = Ok (concat dated).
Proof. intros H. rewrite <- (next_song_df_concat spark). by apply map_rows_concat. Qed.

Lemma time_rows_per_timestamp spark plays ds x :
  map_rows (with_date spark) plays = Ok ds →
  length (Spark.where_ (λ t, Spark.sql_eq x (time.start_time t)) (create_time_table ds))
  = length (Spark.where_ (λ e, Spark.sql_eq x (log_data.ts e)) plays).
Proof.
  intros H. apply map_rows_Ok in H. unfold create_time_table.
  induction H as [|e d plays ds Hed _ IH]; [done|].
  rewrite fmap_cons, !where_cons. simpl.
  destruct (with_date_Ok _ _ _ Hed) as [-> _].
  destruct (Spark.sql_eq x (log_data.ts e)); simpl; by rewrite IH.
Qed.

Lemma one_play_per_timestamp (plays : list log_data.row) e n :
  NoDup (log_data.ts <$> plays) → e ∈ plays → log_data.ts e = Some n →
  length (Spark.where_ (λ e', Spark.sql_eq (Some n) (log_data.ts e')) plays) = 1%nat.
Proof.
  intros Hnd He Hts. induction plays as [|x plays IH]; [by apply elem_of_nil in He|].
  rewrite fmap_cons in Hnd. apply NoDup_cons in Hnd as [Hx Hnd].
  rewrite where_cons. apply elem_of_cons in He as [<-|He].
  - rewrite Hts. simpl. rewrite bool_decide_eq_true_2 by done. simpl. f_equal.
    apply length_zero_iff_nil, where_nil_iff. intros e' He'.
    destruct (Spark.sql_eq (Some n) (log_data.ts e')) eqn:E; [|done].
    apply sql_eq_true in E as (m & [= <-] & Hm). exfalso. apply Hx.
    apply list_elem_of_fmap. exists e'. split; [congruence|done].
  - destruct (Spark.sql_eq (Some n) (log_data.ts x)) eqn:E; [|by apply IH].
    apply sql_eq_true in E as (m & [= <-] & Hm). exfalso. apply Hx.
    apply list_elem_of_fmap. exists e. split; [congruence|done].
Qed.

(** X8. How many time rows a fact row joins: after a run that returns, the
    time rows with the [start_time] of a fact row are as many as the plays
    with that timestamp, one per play since the time table is not
    deduplicated; so when no two plays share a timestamp every fact row
    finds exactly one time row. *)
Theorem time_rows_matching_a_fact spark s3 st :
  (main spark s3 st).2 = Ok () →
  ∃ time facts,
    (main spark s3 st).1 !! Py.os_path_join root_out "time/time.parquet"
      = Some {| partition_cols := ["year"; "month"]; contents := TimeT time |} ∧
    (main spark s3 st).1 !! Py.os_path_join root_out "songplays/songplays.parquet"
      = Some {| partition_cols := ["year"; "month"]; contents := SongplaysT facts |} ∧
    ∀ r, r ∈ facts →
      let plays := Spark.where_ is_NextSong (log_files (s3 root_in)) in
      let matching :=
        Spark.where_ (λ t, Spark.sql_eq (songplays.start_time r) (time.start_time t))
          time in
      length matching
      = length (Spark.where_
                  (λ e, Spark.sql_eq (songplays.start_time r) (log_data.ts e)) plays) ∧
      (NoDup (log_data.ts <$> plays) → length matching = 1%nat).
Proof.
  intros Hok.
  destruct (main_Ok spark s3 st Hok) as (users & dated & songplay & Hu & Hd & Hp & Hst).
  change (Py.os_path_join root_out "time/time.parquet") with time_path.
  change (Py.os_path_join root_out "songplays/songplays.parquet") with songplays_path.
  rewrite Hst.
  set (songs := songs_table_of _). set (artists := artists_table_of _).
  set (time := create_time_table _).
  exists time, (songplays_query songplay time songs artists).
  destruct (final_store_lookup st songs artists users time
              (songplays_query songplay time songs artists))
    as (_ & _ & _ & H4 & H5).
  do 2 (split; [done|]). intros r Hr plays matching.
  pose proof (plays_dated _ _ _ Hd) as Hplays. fold plays in Hplays.
  assert (length matching
          = length (Spark.where_
                      (λ e, Spark.sql_eq (songplays.start_time r) (log_data.ts e))
                      plays)) as Hcount
    by by apply (time_rows_per_timestamp spark).
  split; [done|]. intros Hnd. rewrite Hcount.
  apply elem_of_songplays_query in Hr as (sp & t & os & -> & Hsp & _).
  destruct (songplay_view_sound _ _ _ Hp Hsp) as (id & uid & d & Hin & _ & ->).
  destruct (map_rows_elem_r _ _ _ _ Hplays Hin) as (e & He & Hwd).
  destruct (with_date_Ok _ _ _ Hwd) as (-> & n & Hts & _). simpl.
  rewrite Hts. by apply one_play_per_timestamp with e.
Qed.

Lemma time_rows_matching_a_fact_witness :
  (main utc test_bucket ∅).2 = Ok () ∧
  ∃ time facts,
    (main utc test_bucket ∅).1 !! Py.os_path_join root_out "time/time.parquet"
      = Some {| partition_cols := ["year"; "month"]; contents := TimeT time |} ∧
    (main utc test_bucket ∅).1 !! Py.os_path_join root_out "songplays/songplays.parquet"
      = Some {| partition_cols := ["year"; "month"]; contents := SongplaysT facts |} ∧
    ∀ r, r ∈ facts →
      length (Spark.where_
                (λ t, Spark.sql_eq (songplays.start_time r) (time.start_time t))
                time) = 1%nat.
Proof.
  assert ((main utc test_bucket ∅).2 = Ok ()) as H by (vm_compute; reflexivity).
  split; [exact H|].
  destruct (time_rows_matching_a_fact utc test_bucket ∅ H)
    as (time & facts & Ht & Hf & Hall).
  exists time, facts. split; [exact Ht|]. split; [exact Hf|].
  intros r Hr. destruct (Hall r Hr) as [_ Hone]. apply Hone.
  vm_compute. apply NoDup_singleton.
Defined.

Lemma length_bind_ge {A B} (f : A → list B) (l : list A) :
  (∀ a, a ∈ l → (1 ≤ length (f a))%nat) → (length l ≤ length (l ≫= f))%nat.
Proof.
  induction l as [|a l IH]; intros H; [done|].
  rewrite bind_cons, length_app. simpl.
  assert (1 ≤ length (f a))%nat by (apply H; left).
  assert (length l ≤ length (l ≫= f))%nat by (apply IH; intros; apply H; by right).
  lia.
Qed.

Lemma length_left_join_ge {A B} (on : A → B → bool) l r :
  (length l ≤ length (Spark.left_join on l r))%nat.
Proof.
  unfold Spark.left_join. apply length_bind_ge. intros a _.
  destruct (Spark.where_ (on a) r) as [|b ms]; simpl; lia.
Qed.

(** X9. No play is lost on the way to the fact table: after a run that
    returns, every fact row has the user_id of a row of the users table and
    the start_time, year and month of a row of the time table, and the fact
    table has at least as many rows as the log has plays (joins can repeat
    a play, never drop one). *)
Theorem facts_reference_users_and_time spark s3 st :
  (main spark s3 st).2 = Ok () →
  ∃ users time facts,
    (main spark s3 st).1 !! Py.os_path_join root_out "users/users.parquet"
      = Some {| partition_cols := []; contents := UsersT users |} ∧
    (main spark s3 st).1 !! Py.os_path_join root_out "time/time.parquet"
      = Some {| partition_cols := ["year"; "month"]; contents := TimeT time |} ∧
    (main spark s3 st).1 !! Py.os_path_join root_out "songplays/songplays.parquet"
      = Some {| partition_cols := ["year"; "month"]; contents := SongplaysT facts |} ∧
    (∀ r, r ∈ facts →
       (∃ u, u ∈ users ∧ users.user_id u = songplays.user_id r ∧
             users.level u = songplays.level r) ∧
       (∃ t, t ∈ time ∧ time.start_time t = songplays.start_time r ∧
             is_Some (time.start_time t) ∧
             time.year t = songplays.year r ∧ time.month t = songplays.month r)) ∧
    (length (Spark.where_ is_NextSong (log_files (s3 root_in))) ≤ length facts)%nat.
Proof.
  intros Hok.
  destruct (main_Ok spark s3 st Hok) as (users & dated & songplay & Hu & Hd & Hp & Hst).
  change (Py.os_path_join root_out "users/users.parquet") with users_path.
  change (Py.os_path_join root_out "time/time.parquet") with time_path.
  change (Py.os_path_join root_out "songplays/songplays.parquet") with songplays_path.
  rewrite Hst.
  set (songs := songs_table_of _). set (artists := artists_table_of _).
  set (time := create_time_table _).
  exists users, time, (songplays_query songplay time songs artists).
  destruct (final_store_lookup st songs artists users time
              (songplays_query songplay time songs artists))
    as (_ & _ & H3 & H4 & H5).
  do 3 (split; [done|]). split.
  - intros r Hr.
    apply elem_of_songplays_query in Hr as (sp & t & os & -> & Hsp & Ht & Hon & _).
    split.
    + destruct (songplay_view_sound _ _ _ Hp Hsp) as (id & uid & d & Hin & Huid & ->).
      destruct (dated_sound _ _ _ _ Hd Hin) as (e & He & Hwd).
      destruct (with_date_Ok _ _ _ Hwd) as [Hev _]. rewrite Hev in *.
      destruct (users_complete _ _ _ Hu He) as (n & Hn & Hrow).
      assert (n = uid) as -> by congruence.
      eexists. split; [exact Hrow|]. by split.
    + exists t. apply sql_eq_true in Hon as (n & Hs & Htn). simpl.
      rewrite Hs, Htn. by repeat split.
  - unfold songplays_query. rewrite length_fmap.
    etrans; [|apply length_left_join_ge]. etrans; [|apply length_left_join_ge].
    pose proof (plays_dated _ _ _ Hd) as Hplays.
    apply map_rows_Ok, Forall2_length in Hplays. rewrite Hplays.
    assert (length songplay = length (concat dated)) as <-.
    { unfold create_songplays_dataframe in Hp.
      apply map_rows_Ok, Forall2_length in Hp.
      by rewrite <- Hp, <- (monotonically_increasing_id_snd dated), length_fmap. }
    unfold Spark.inner_join. apply length_bind_ge. intros sp Hsp.
    rewrite length_fmap.
    destruct (songplay_view_sound _ _ _ Hp Hsp) as (id & uid & d & Hin & _ & ->).
    assert (time_select d ∈ Spark.where_ (on_time (songplay_select id uid (event d))) time)
      as Hmatch.
    { apply elem_of_where_. split.
      - destruct (dated_sound _ _ _ _ Hd Hin) as (e & _ & Hwd).
        destruct (with_date_Ok _ _ _ Hwd) as (Hev & n & Hts & _).
        unfold on_time. simpl. rewrite Hev, Hts. by apply bool_decide_eq_true.
      - unfold time, create_time_table. apply list_elem_of_fmap. by exists d. }
    destruct (Spark.where_ _ time); [by apply elem_of_nil in Hmatch | simpl; lia].
Qed.

Lemma facts_reference_users_and_time_witness :
  (main utc test_bucket ∅).2 = Ok () ∧
  ∃ facts,
    (main utc test_bucket ∅).1 !! Py.os_path_join root_out "songplays/songplays.parquet"
      = Some {| partition_cols := ["year"; "month"]; contents := SongplaysT facts |} ∧
    (length (Spark.where_ is_NextSong (log_files (test_bucket root_in))) ≤ length facts)%nat.
Proof.
  assert ((main utc test_bucket ∅).2 = Ok ()) as H by (vm_compute; reflexivity).
  split; [exact H|].
  destruct (facts_reference_users_and_time utc test_bucket ∅ H)
    as (users & time & facts & _ & _ & Hf & _ & Hlen).
  exists facts. split; [exact Hf | exact Hlen].
Defined.

(** ** The text of a user id *)

Lemma lstrip_idem l : Py.lstrip (Py.lstrip l) = Py.lstrip l.
Proof.
  induction l as [|c t IH]; [done|]. simpl.
  destruct (Py.isspace c) eqn:E; [done|]. simpl. by rewrite E.
Qed.

Lemma lstrip_head l :
  Py.lstrip l = [] ∨ ∃ c t, Py.lstrip l = c :: t ∧ Py.isspace c = false.
Proof.
  induction l as [|c t IH]; [by left|]. simpl.
  destruct (Py.isspace c) eqn:E; [done|]. right. by exists c, t.
Qed.

Lemma lstrip_app_last u c :
  Py.isspace c = false → Py.lstrip (u ++ [c])%list = (Py.lstrip u ++ [c])%list.
Proof.
  intros Hc. induction u as [|x u IH]; simpl; [by rewrite Hc|].
  by destruct (Py.isspace x).
Qed.

Lemma rstrip_cons c t :
  Py.isspace c = false → Py.rstrip (c :: t) = c :: Py.rstrip t.
Proof.
  intros Hc. unfold Py.rstrip. simpl.
  by rewrite lstrip_app_last, rev_app_distr.
Qed.

Lemma rstrip_idem l : Py.rstrip (Py.rstrip l) = Py.rstrip l.
Proof. unfold Py.rstrip. by rewrite rev_involutive, lstrip_idem. Qed.

(** Trimming a trimmed text changes nothing. *)
Lemma strip_idem l :
  Py.rstrip (Py.lstrip (Py.rstrip (Py.lstrip l))) = Py.rstrip (Py.lstrip l).
Proof.
  destruct (lstrip_head l) as [-> | (c & t & -> & Hc)]; [done|].
  rewrite (rstrip_cons c t Hc). simpl. rewrite Hc.
  by rewrite <- (rstrip_cons c t Hc), rstrip_idem.
Qed.

Lemma strip_chars s :
  list_ascii_of_string (Py.strip s) = Py.rstrip (Py.lstrip (list_ascii_of_string s)).
Proof. unfold Py.strip. apply list_ascii_of_string_of_list_ascii. Qed.

(** [int] trims the text itself: the [strip] of the lambda changes nothing. *)
Lemma userid_int_int_of_str s : userid_int (Some s) = Py.int_of_str s.
Proof.
  unfold userid_int, Py.int_of_str. by rewrite strip_chars, strip_idem.
Qed.



(** ** The rows of the time table *)

Lemma civil_from_days_ranges z :
  1 ≤ (Py.civil_from_days z).1.2 ≤ 12 ∧ 1 ≤ (Py.civil_from_days z).2 ≤ 31.
Proof.
  unfold Py.civil_from_days. cbv zeta. simpl.
  set (z' := z + 719468). set (era := z' / 146097).
  set (doe := z' - era * 146097).
  set (yoe := (doe - doe / 1460 + doe / 36524 - doe / 146096) / 365).
  set (doy := doe - (365 * yoe + yoe / 4 - yoe / 100)).
  set (mp := (5 * doy + 2) / 153).
  assert (0 ≤ doe ≤ 146096)
    by (subst doe era; Z.to_euclidean_division_equations; lia).
  assert (0 ≤ yoe ≤ 399) by (subst yoe; Z.to_euclidean_division_equations; lia).
  assert (0 ≤ doy ≤ 365)
    by (subst doy yoe; Z.to_euclidean_division_equations; lia).
  assert (0 ≤ mp ≤ 11) by (subst mp; Z.to_euclidean_division_equations; lia).
  split.
  - destruct (mp <? 10) eqn:E; [apply Z.ltb_lt in E | apply Z.ltb_ge in E]; lia.
  - subst mp. Z.to_euclidean_division_equations; lia.
Qed.

Lemma fromtimestamp_ranges tz x d :
  Py.fromtimestamp tz x = Ok d →
  1 ≤ Py.dt_year d ≤ 9999 ∧ 1 ≤ Py.dt_month d ≤ 12 ∧ 1 ≤ Py.dt_day d ≤ 31 ∧
  0 ≤ Py.dt_hour d ≤ 23 ∧ 0 ≤ Py.dt_minute d ≤ 59 ∧ 0 ≤ Py.dt_second d ≤ 59.
Proof.
  unfold Py.fromtimestamp. cbv zeta.
  pose proof (civil_from_days_ranges ((x + tz x) / 86400)) as [Hm Hd].
  destruct (Py.civil_from_days ((x + tz x) / 86400)) as [[y m] dd]. simpl in Hm, Hd.
  destruct ((1 <=? y) && (y <=? 9999)) eqn:Hy; [|discriminate].
  apply andb_true_iff in Hy as [Hy1 Hy2].
  apply Z.leb_le in Hy1, Hy2. intros [= <-]. simpl.
  repeat split; try lia; Z.to_euclidean_division_equations; lia.
Qed.

Lemma weekofyear_range d : 1 ≤ Spark.weekofyear d ≤ 53.
Proof.
  assert (∀ y, 52 ≤ Spark.weeks_in_year y ≤ 53) as Hw.
  { intros y. unfold Spark.weeks_in_year. destruct (_ || _); lia. }
  unfold Spark.weekofyear. cbv zeta.
  set (w := (_ - Spark.isoweekday d + 10) / 7).
  pose proof (Hw (Py.dt_year d)). pose proof (Hw (Py.dt_year d - 1)).
  destruct (w <? 1) eqn:E1; [lia|]. apply Z.ltb_ge in E1.
  destruct (Spark.weeks_in_year (Py.dt_year d) <? w) eqn:E2; [lia|].
  apply Z.ltb_ge in E2. lia.
Qed.

Lemma date_format_E_names d :
  Spark.date_format_E d ∈ ["Mon"; "Tue"; "Wed"; "Thu"; "Fri"; "Sat"; "Sun"].
Proof.
  unfold Spark.date_format_E.
  repeat case_match; set_solver.
Qed.



(** ** When the users table has no repeated row *)

Lemma map_rows_NoDup {A B} (f : A → result B) l ys :
  map_rows f l = Ok ys →
  NoDup l →
  (∀ x x' y, x ∈ l → x' ∈ l → f x = Ok y → f x' = Ok y → x = x') →
  NoDup ys.
Proof.
  intros H. apply map_rows_Ok in H.
  induction H as [|x y l ys Hxy Hrest IH]; intros Hnd Hinj; [constructor|].
  apply NoDup_cons in Hnd as [Hx Hnd]. constructor.
  - intros Hy. apply list_elem_of_lookup in Hy as [i Hi].
    destruct (Forall2_lookup_r _ _ _ _ _ Hrest Hi) as (x' & Hx' & Hfx').
    assert (x' ∈ l) as Hin by (apply list_elem_of_lookup; eauto).
    assert (x = x') as -> by (apply (Hinj x x' y); [left|by right|done|done]).
    done.
  - apply IH; [done|]. intros a a' b Ha Ha'. apply Hinj; by right.
Qed.



(** ** The artists table, record by record *)



(** ** The exceptions of a run *)

Lemma fromtimestamp_Err tz x err :
  Py.fromtimestamp tz x = Err err → err = ValueError.
Proof.
  unfold Py.fromtimestamp. cbv zeta.
  destruct (Py.civil_from_days ((x + tz x) / 86400)) as [[y m] d].
  destruct ((1 <=? y) && (y <=? 9999)); [discriminate|]. by intros [= <-].
Qed.

Lemma with_date_Err spark e err :
  with_date spark e = Err err →
  (log_data.ts e = None ∧ err = TypeError) ∨
  (∃ n, log_data.ts e = Some n ∧ err = ValueError).
Proof.
  unfold with_date, get_timestamp, get_datetime.
  destruct (log_data.ts e) as [n|]; cbn [rbind]; [|intros [= <-]; by left].
  destruct (Py.fromtimestamp _ _) as [d|err'] eqn:E; cbn [rbind]; [discriminate|].
  intros [= <-]. right. exists n. split; [done|]. by eapply fromtimestamp_Err.
Qed.


